(** * Nitrogen estimation engine of [wheat_n_estimation/n_estimator.py]

    A shallow embedding of [NitrogenEstimator] and the properties of its
    estimation engine.

    Numbers.  The program computes on Python floats.  They are modelled as
    real numbers ([R]): rounding, overflow, infinities and NaN are outside
    the model, and a tolerance of the specification (1e-6, 1e-9) is met
    here by an exact equality.  Where overflow and NaN decide a property,
    the estimator is modelled a second time on binary64 numbers, in
    [Module Binary64].

    Dictionaries.  The input [indices] is a [gmap string R].  The
    dictionaries the estimator builds ([confidence_intervals],
    [method_weights]) are association lists in insertion order, which is
    the order Python iterates them in.

    Exceptions.  A computation that may raise has type [exn + A]. *)

From Stdlib Require Import Reals Lra List.
From Stdlib Require PrimFloat.
From stdpp Require Import base option strings gmap.
Import ListNotations.

Open Scope string_scope.
Open Scope list_scope.
Open Scope R_scope.

(** ** Exceptions *)

Inductive exn : Type :=
  | ValueError (msg : string)
  | KeyError (key : string)
  | ZeroDivisionError.

Definition raise {A : Type} (e : exn) : exn + A := inl e.
Definition ret {A : Type} (a : A) : exn + A := inr a.

Definition bind {A B : Type} (c : exn + A) (k : A -> exn + B) : exn + B :=
  match c with
  | inl e => inl e
  | inr a => k a
  end.

Notation "'do' x <- c ; k" := (bind c (fun x => k))
  (at level 10, x name, c at level 100, k at level 200).

(** ** Python and numpy primitives *)

#[global] Instance Rlt_decision : RelDecision Rlt := Rlt_dec.
#[global] Instance Rgt_decision : RelDecision Rgt := Rgt_dec.
#[global] Instance Req_decision : EqDecision R := Req_dec_T.

(** [x / y] on two Python floats: [ZeroDivisionError] when [y] is zero. *)
Definition truediv (x y : R) : exn + R :=
  if decide (y = 0) then raise ZeroDivisionError else ret (x / y).

(** [d[key]] on the input dictionary: [KeyError] when the key is absent. *)
Definition getitem (d : gmap string R) (key : string) : exn + R :=
  match d !! key with
  | Some v => ret v
  | None => raise (KeyError key)
  end.

(** [key in d]. *)
Definition contains (key : string) (d : gmap string R) : bool :=
  bool_decide (is_Some (d !! key)).

(** [d[key] = v] on an insertion-ordered dictionary: an existing key keeps
    its place and gets the new value, a new key goes to the end. *)
Fixpoint setitem {V : Type} (d : list (string * V)) (key : string) (v : V)
  : list (string * V) :=
  match d with
  | [] => [(key, v)]
  | (k, w) :: d' =>
      if decide (k = key) then (k, v) :: d' else (k, w) :: setitem d' key v
  end.

(** [d.values()]. *)
Definition values {V : Type} (d : list (string * V)) : list V := map snd d.

(** [d.get(key)] on a dictionary the estimator returns. *)
Fixpoint get {V : Type} (d : list (string * V)) (key : string) : option V :=
  match d with
  | [] => None
  | (k, w) :: d' => if decide (k = key) then Some w else get d' key
  end.

(** [sum(xs)]: starts from 0 and adds from the left. *)
Definition sum (xs : list R) : R := fold_left Rplus xs 0.

(** [np.mean(xs)]. *)
Definition mean (xs : list R) : R := sum xs / INR (length xs).

(** [np.clip(x, lo, hi)], that is [minimum(maximum(x, lo), hi)], on real
    numbers.  On binary64 numbers [np.clip] returns a NaN unchanged: see
    [Binary64.clip]. *)
Definition clip (x lo hi : R) : R := Rmin (Rmax x lo) hi.

(** ** The estimator's data *)

(** An entry of [confidence_intervals]:
    [{'estimate': .., 'rmse': .., 'r2': ..}]. *)
Record ConfidenceInterval : Type := {
  ci_estimate : R;
  ci_rmse : R;
  ci_r2 : R
}.

(** The [uncertainty] dictionary. *)
Record Uncertainty : Type := {
  rmse : R;
  r2_mean : R;
  sample_size : nat
}.

(** The dictionary [estimate_n_content_from_indices] returns. *)
Record EstimationResult : Type := {
  n_content : R;
  confidence_intervals : list (string * ConfidenceInterval);
  uncertainty : Uncertainty;
  method_weights : list (string * R)
}.

(** The two locals the three estimation blocks extend: [n_estimates], a
    list of [(name, estimate, weight)], and [confidence_intervals]. *)
Definition locals : Type :=
  (list (string * R * R) * list (string * ConfidenceInterval))%type.

(** ** [NitrogenEstimator.estimate_n_content_from_indices] *)

(** 1. NDRE-based estimation. *)
Definition ndre_block (indices : gmap string R) (l : locals) : exn + locals :=
  let '(n_estimates, confidence_intervals) := l in
  if contains "NDRE" indices then
    do ndre <- getitem indices "NDRE";
    let ndre_n := 4.14 * ndre + 0.42 in
    ret (n_estimates ++ [("NDRE", ndre_n, 0.89)],
         setitem confidence_intervals "NDRE"
           {| ci_estimate := ndre_n; ci_rmse := 0.31; ci_r2 := 0.89 |})
  else ret l.

(** 2. CIred-edge based estimation. *)
Definition ci_block (indices : gmap string R) (l : locals) : exn + locals :=
  let '(n_estimates, confidence_intervals) := l in
  if contains "CIred-edge" indices then
    do ci <- getitem indices "CIred-edge";
    let ci_n := 2.88 * ci + 0.97 in
    ret (n_estimates ++ [("CIred-edge", ci_n, 0.87)],
         setitem confidence_intervals "CIred-edge"
           {| ci_estimate := ci_n; ci_rmse := 0.34; ci_r2 := 0.87 |})
  else ret l.

(** 3. MCARI-based estimation. *)
Definition mcari_block (indices : gmap string R) (l : locals) : exn + locals :=
  let '(n_estimates, confidence_intervals) := l in
  if contains "MCARI" indices then
    do mcari <- getitem indices "MCARI";
    let mcari_n := 3.52 * mcari + 1.12 in
    ret (n_estimates ++ [("MCARI", mcari_n, 0.83)],
         setitem confidence_intervals "MCARI"
           {| ci_estimate := mcari_n; ci_rmse := 0.39; ci_r2 := 0.83 |})
  else ret l.

(** 4. SAVI adjustment for soil background. *)
Definition savi_block (indices : gmap string R) : exn + R :=
  if contains "SAVI" indices then
    do savi <- getitem indices "SAVI";
    if decide (savi < 0.2) then ret 0.85
    else if decide (savi > 0.7) then ret 1.12
    else ret 1.0
  else ret 1.0.

(** The weighted average, the correction, the clamp and the uncertainty
    metrics, or the [ValueError] of an empty [n_estimates]. *)
Definition combine (l : locals) (savi_correction : R) : exn + EstimationResult :=
  let '(n_estimates, confidence_intervals) := l in
  match n_estimates with
  | _ :: _ =>
      let total_weight := sum (map (fun '(_, _, weight) => weight) n_estimates) in
      let weighted_n :=
        sum (map (fun '(_, est, weight) => est * weight) n_estimates)
        / total_weight in
      let n_content := weighted_n * savi_correction in
      let n_content := clip n_content 1.5 6.0 in
      let rmse_weighted :=
        sqrt (mean (map (fun ci => ci_rmse ci ^ 2) (values confidence_intervals))) in
      let r2_mean := mean (map ci_r2 (values confidence_intervals)) in
      ret {| n_content := n_content;
             confidence_intervals := confidence_intervals;
             uncertainty := {| rmse := rmse_weighted;
                               r2_mean := r2_mean;
                               sample_size := length n_estimates |};
             method_weights :=
               map (fun '(name, _, weight) => (name, weight / total_weight))
                   n_estimates |}
  | [] => raise (ValueError "No valid indices available for N content estimation")
  end.

Definition estimate_n_content_from_indices (indices : gmap string R)
  : exn + EstimationResult :=
  do l1 <- ndre_block indices ([], []);
  do l2 <- ci_block indices l1;
  do l3 <- mcari_block indices l2;
  do savi_correction <- savi_block indices;
  combine l3 savi_correction.

(** ** [NitrogenEstimator.get_estimation_quality] *)

Definition get_estimation_quality (uncertainty : Uncertainty) : string :=
  if bool_decide (r2_mean uncertainty > 0.85) && bool_decide (rmse uncertainty < 0.35)
  then "High Confidence"
  else if bool_decide (r2_mean uncertainty > 0.75) && bool_decide (rmse uncertainty < 0.45)
  then "Moderate Confidence"
  else "Low Confidence".

(** ** [NitrogenEstimator.predict] *)

Section Predict.

(** The type of the [date] values, and [str] on it (used by the warning
    the loop prints). *)
Variable Date : Type.
Variable str : Date -> string.

(** An entry of [time_series_indices]: [{'date': .., 'indices': ..}]. *)
Record Observation : Type := {
  date : Date;
  indices : gmap string R
}.

(** An estimation result after [estimation_results['date'] = ..]. *)
Record DatedEstimationResult : Type := {
  result : EstimationResult;
  result_date : Date
}.

Definition warning (d : Date) (msg : string) : string :=
  ("Warning: Could not estimate N content for date " ++ str d ++ ": " ++ msg)%string.

(** The [for] loop of [predict]: [predictions] and the lines printed so
    far are threaded through.  [except ValueError] handles a [ValueError];
    any other exception leaves the loop. *)
Fixpoint predict_loop (predictions : list DatedEstimationResult)
    (stdout : list string) (time_series_indices : list Observation)
  : exn + (list DatedEstimationResult * list string) :=
  match time_series_indices with
  | [] => ret (predictions, stdout)
  | ts_data :: rest =>
      match estimate_n_content_from_indices (indices ts_data) with
      | inr estimation_results =>
          predict_loop
            (predictions ++ [{| result := estimation_results;
                                result_date := date ts_data |}])
            stdout rest
      | inl (ValueError e) =>
          predict_loop predictions
            (stdout ++ [warning (date ts_data) e]) rest
      | inl other => raise other
      end
  end.

(** The returned list, with the lines printed. *)
Definition predict (time_series_indices : list Observation)
  : exn + (list DatedEstimationResult * list string) :=
  predict_loop [] [] time_series_indices.

End Predict.

Arguments date {Date}.
Arguments indices {Date}.
Arguments result {Date}.
Arguments result_date {Date}.
Arguments warning {Date}.
Arguments predict_loop {Date}.
Arguments predict {Date}.

(** ** The specification's reading of the estimator

    The specification describes the estimator by a fixed regression table
    and the methods of the table that are applicable to an input.  These
    definitions follow its words; the theorems below compare the program
    with them. *)

Module Spec.

Record Method : Type := {
  name : string;
  slope : R;
  intercept : R;
  r2 : R;
  ref_rmse : R
}.

Definition table : list Method :=
  [ {| name := "NDRE"; slope := 4.14; intercept := 0.42;
       r2 := 0.89; ref_rmse := 0.31 |};
    {| name := "CIred-edge"; slope := 2.88; intercept := 0.97;
       r2 := 0.87; ref_rmse := 0.34 |};
    {| name := "MCARI"; slope := 3.52; intercept := 1.12;
       r2 := 0.83; ref_rmse := 0.39 |} ].

(** The methods whose source index is present, each with the value of its
    index. *)
Definition applicable (indices : gmap string R) : list (Method * R) :=
  omap (fun m => pair m <$> indices !! name m) table.

Definition method_estimate (a : Method * R) : R :=
  slope (fst a) * snd a + intercept (fst a).

Definition weight (a : Method * R) : R := r2 (fst a).

Definition Rsum (xs : list R) : R := fold_right Rplus 0 xs.

Definition Rmean (xs : list R) : R := Rsum xs / INR (length xs).

(** [n = Σ(estimate_i · r2_i) / Σ(r2_i)]. *)
Definition fused (indices : gmap string R) : R :=
  Rsum (map (fun a => method_estimate a * weight a) (applicable indices))
  / Rsum (map weight (applicable indices)).

Definition savi_factor (indices : gmap string R) : R :=
  match indices !! "SAVI" with
  | Some savi =>
      if decide (savi < 0.2) then 0.85
      else if decide (savi > 0.7) then 1.12
      else 1.0
  | None => 1.0
  end.

(** Saturation to [1.5, 6.0]. *)
Definition clamp (x : R) : R :=
  if decide (x < 1.5) then 1.5 else if decide (x > 6.0) then 6.0 else x.

(** [rmse = sqrt(mean(rmse_i^2))] over the applicable methods. *)
Definition aggregate_rmse (indices : gmap string R) : R :=
  sqrt (Rmean (map (fun a => ref_rmse (fst a) ^ 2) (applicable indices))).

(** The arithmetic mean of the applicable methods' R². *)
Definition aggregate_r2 (indices : gmap string R) : R :=
  Rmean (map weight (applicable indices)).

(** [method_weights[name] = r2_name / Σr2]. *)
Definition normalized_weights (indices : gmap string R) : list (string * R) :=
  map (fun a => (name (fst a),
                 weight a / Rsum (map weight (applicable indices))))
      (applicable indices).

End Spec.

(** ** Vocabulary of the statements *)

(** At least one of the keys NDRE, CIred-edge, MCARI is present. *)
Definition has_method_key (indices : gmap string R) : Prop :=
  is_Some (indices !! "NDRE") \/ is_Some (indices !! "CIred-edge")
  \/ is_Some (indices !! "MCARI").

#[global] Instance has_method_key_dec (indices : gmap string R) :
  Decision (has_method_key indices).
Proof. unfold has_method_key. apply _. Defined.

(** An entry of a time series passes validation when its index mapping has
    a method key. *)
Definition valid {Date : Type} (obs : Observation Date) : Prop :=
  has_method_key (indices obs).

#[global] Instance valid_dec {Date : Type} (obs : Observation Date) :
  Decision (valid obs).
Proof. unfold valid. apply _. Defined.

Definition no_indices_message : string :=
  "No valid indices available for N content estimation".

(** What a block appends to [n_estimates] and stores in
    [confidence_intervals] for an applicable method. *)
Definition estimate_entry (a : Spec.Method * R) : string * R * R :=
  (Spec.name (fst a), Spec.method_estimate a, Spec.weight a).

Definition interval_entry (a : Spec.Method * R) : string * ConfidenceInterval :=
  (Spec.name (fst a),
   {| ci_estimate := Spec.method_estimate a;
      ci_rmse := Spec.ref_rmse (fst a);
      ci_r2 := Spec.weight a |}).

(** What the loop of [predict] appends for an entry: its dated estimate
    when the estimator returns, nothing otherwise. *)
Definition dated_estimate {Date : Type} (obs : Observation Date)
  : option (DatedEstimationResult Date) :=
  match estimate_n_content_from_indices (indices obs) with
  | inr res => Some {| result := res; result_date := date obs |}
  | inl _ => None
  end.

(** What the loop prints for an entry: a warning when the estimator raises
    [ValueError], nothing otherwise. *)
Definition skipped_warning {Date : Type} (str : Date -> string)
    (obs : Observation Date) : option string :=
  match estimate_n_content_from_indices (indices obs) with
  | inl (ValueError e) => Some (warning str (date obs) e)
  | _ => None
  end.

(** The two tiers of [get_estimation_quality]. *)
Definition high_tier (u : Uncertainty) : Prop :=
  r2_mean u > 0.85 /\ rmse u < 0.35.

Definition moderate_tier (u : Uncertainty) : Prop :=
  r2_mean u > 0.75 /\ rmse u < 0.45.

(** ** Concrete inputs *)

(** The example input of the specification. *)
Definition golden : gmap string R :=
  {[ "NDRE" := 0.5; "CIred-edge" := 2.0; "MCARI" := 0.3; "SAVI" := 0.6 ]}.

(** The fixture of the repository's tests: the example input with NDVI and
    GNDVI added. *)
Definition sample_indices : gmap string R :=
  {[ "NDVI" := 0.7; "NDRE" := 0.5; "SAVI" := 0.6; "GNDVI" := 0.65;
     "MCARI" := 0.3; "CIred-edge" := 2.0 ]}.

(** NDRE is a normalised difference, in [-1, 1]; CIred-edge is a ratio of
    reflectances minus one, at least -1.  Both values here are outside. *)
Definition out_of_domain : gmap string R :=
  {[ "NDRE" := -5.0; "CIred-edge" := -2.0 ]}.

Definition large_ci : gmap string R := {[ "CIred-edge" := 1000.0 ]}.
Definition negative_ndre : gmap string R := {[ "NDRE" := -5.0 ]}.
Definition ndvi_only : gmap string R := {[ "NDVI" := -1.0 ]}.

Definition good_entry : Observation string :=
  {| date := "2024-02-01"; indices := golden |}.

Definition bad_entry : Observation string :=
  {| date := "2024-02-11"; indices := ndvi_only |}.

(** ** [DataLoader] and the steps of [NitrogenEstimationPipeline.run_pipeline]

    Reading a file is outside the model: an image stands for a .tif file
    already opened, with its date parsed and its five bands read, each
    band flattened to the list of its pixels (a raster has at least one).
    The rows of the DataFrame hold Python floats, so a division by zero
    raises [ZeroDivisionError]. *)

Section Pipeline.

Variable Date : Type.
Variable str : Date -> string.

(** The path of the data directory, as the error message prints it. *)
Variable data_dir : string.

(** An opened image: band 1 is blue, 2 green, 3 red, 4 near infrared and
    5 red edge. *)
Record Image : Type := {
  image_date : Date;
  band1 : list R;
  band2 : list R;
  band3 : list R;
  band4 : list R;
  band5 : list R
}.

(** A row of the DataFrame [load_time_series] returns. *)
Record BandMeans : Type := {
  row_date : Date;
  blue : R;
  green : R;
  red : R;
  nir : R;
  red_edge : R
}.

(** The loop of [load_time_series] over the images found. *)
Fixpoint load_loop (time_series : list BandMeans) (image_files : list Image)
  : list BandMeans :=
  match image_files with
  | [] => time_series
  | src :: rest =>
      load_loop
        (time_series ++ [{| row_date := image_date src;
                            blue := mean (band1 src);
                            green := mean (band2 src);
                            red := mean (band3 src);
                            nir := mean (band4 src);
                            red_edge := mean (band5 src) |}])
        rest
  end.

Definition load_time_series (image_files : list Image) : exn + list BandMeans :=
  match image_files with
  | [] => raise (ValueError ("No .tif files found in " ++ data_dir)%string)
  | _ :: _ => ret (load_loop [] image_files)
  end.

(** The [indices] dictionary [calculate_vegetation_indices] builds for a
    row: the six values are computed in the order of the dictionary
    display, and the first division by zero raises. *)
Definition row_indices (row : BandMeans) : exn + gmap string R :=
  do ndvi <- truediv (nir row - red row) (nir row + red row);
  do ndre <- truediv (nir row - red_edge row) (nir row + red_edge row);
  do savi <- truediv (1.5 * (nir row - red row)) (nir row + red row + 0.5);
  do gndvi <- truediv (nir row - green row) (nir row + green row);
  do red_edge_red <- truediv (red_edge row) (red row);
  let mcari :=
    ((red_edge row - red row) - 0.2 * (red_edge row - green row))
    * red_edge_red in
  do nir_red_edge <- truediv (nir row) (red_edge row);
  ret {[ "NDVI" := ndvi;
         "NDRE" := ndre;
         "SAVI" := savi;
         "GNDVI" := gndvi;
         "MCARI" := mcari;
         "CIred-edge" := nir_red_edge - 1 ]}.

(** The loop of [calculate_vegetation_indices] over the rows. *)
Fixpoint indices_loop (time_series_indices : list (Observation Date))
    (df : list BandMeans) : exn + list (Observation Date) :=
  match df with
  | [] => ret time_series_indices
  | row :: rest =>
      do indices <- row_indices row;
      indices_loop
        (time_series_indices ++ [{| date := row_date row;
                                    indices := indices |}])
        rest
  end.

Definition calculate_vegetation_indices (image_files : list Image)
  : exn + list (Observation Date) :=
  do df <- load_time_series image_files;
  indices_loop [] df.

(** Steps 1 to 3 of [run_pipeline]: the value of [analysis_results], with
    the lines printed.  Step 4 writes files and is not modelled. *)
Definition analysis_results (image_files : list Image)
  : exn + (list (DatedEstimationResult Date) * list string) :=
  let stdout := ["Loading time series data..."] in
  do time_series_data <- load_time_series image_files;
  let stdout := stdout ++ ["Calculating vegetation indices..."] in
  do indices <- calculate_vegetation_indices image_files;
  let stdout := stdout ++ ["Estimating above-ground nitrogen content..."] in
  do predicted <- predict str indices;
  ret (fst predicted, stdout ++ snd predicted).

End Pipeline.

Arguments image_date {Date}.
Arguments band1 {Date}.
Arguments band2 {Date}.
Arguments band3 {Date}.
Arguments band4 {Date}.
Arguments band5 {Date}.
Arguments row_date {Date}.
Arguments blue {Date}.
Arguments green {Date}.
Arguments red {Date}.
Arguments nir {Date}.
Arguments red_edge {Date}.
Arguments load_loop {Date}.
Arguments load_time_series {Date}.
Arguments row_indices {Date}.
Arguments indices_loop {Date}.
Arguments calculate_vegetation_indices {Date}.
Arguments analysis_results {Date}.

(** ** [SyntheticDataGenerator]

    A random draw is an input of the model: [noise i] is the i-th value
    of a draw of [n_timepoints] values, and a drawn band is a list of
    pixels. *)





(** [create_synthetic_image], up to the bands it writes: of the five bands
    drawn, near infrared is replaced by the one computed from red and the
    NDVI target.  The bands are written in the order blue, green, red,
    near infrared, red edge. *)
Definition create_synthetic_image {Date : Type} (d : Date)
    (indices : gmap string R) (blue green red red_edge : list R)
  : exn + Image Date :=
  do ndvi_target <- getitem indices "NDVI";
  let nir := map (fun r => r * (1 + ndvi_target) / (1 - ndvi_target)) red in
  ret {| image_date := d;
         band1 := blue;
         band2 := green;
         band3 := red;
         band4 := nir;
         band5 := red_edge |}.

(** ** Vocabulary of the statements on the pipeline *)

(** The row [load_time_series] appends for an image. *)
Definition band_means {Date : Type} (src : Image Date) : BandMeans Date :=
  {| row_date := image_date src;
     blue := mean (band1 src);
     green := mean (band2 src);
     red := mean (band3 src);
     nir := mean (band4 src);
     red_edge := mean (band5 src) |}.

(** Every band of the image has a pixel. *)
Definition has_pixels {Date : Type} (src : Image Date) : Prop :=
  band1 src <> [] /\ band2 src <> [] /\ band3 src <> [] /\
  band4 src <> [] /\ band5 src <> [].

(** No division of [calculate_vegetation_indices] on the row is by zero. *)
Definition nonzero_denominators {Date : Type} (row : BandMeans Date) : Prop :=
  nir row + red row <> 0 /\
  nir row + red_edge row <> 0 /\
  nir row + red row + 0.5 <> 0 /\
  nir row + green row <> 0 /\
  red row <> 0 /\
  red_edge row <> 0.

#[global] Instance nonzero_denominators_dec {Date : Type} (row : BandMeans Date) :
  Decision (nonzero_denominators row).
Proof. unfold nonzero_denominators. apply _. Defined.

(** The four band means the indices read are reflectances: positive and
    at most 1. *)
Definition reflectance_means {Date : Type} (row : BandMeans Date) : Prop :=
  0 < green row <= 1 /\ 0 < red row <= 1 /\
  0 < nir row <= 1 /\ 0 < red_edge row <= 1.

(** The four band means the indices read are positive. *)
Definition positive_means {Date : Type} (row : BandMeans Date) : Prop :=
  0 < green row /\ 0 < red row /\ 0 < nir row /\ 0 < red_edge row.

(** The dictionary of a row on which no division is by zero. *)
Definition row_formulas {Date : Type} (row : BandMeans Date) : gmap string R :=
  {[ "NDVI" := (nir row - red row) / (nir row + red row);
     "NDRE" := (nir row - red_edge row) / (nir row + red_edge row);
     "SAVI" := 1.5 * (nir row - red row) / (nir row + red row + 0.5);
     "GNDVI" := (nir row - green row) / (nir row + green row);
     "MCARI" := ((red_edge row - red row) - 0.2 * (red_edge row - green row))
                * (red_edge row / red row);
     "CIred-edge" := nir row / red_edge row - 1 ]}.

(** The entry [calculate_vegetation_indices] appends for such a row. *)
Definition row_observation {Date : Type} (row : BandMeans Date)
  : Observation Date :=
  {| date := row_date row; indices := row_formulas row |}.

(** The lines [run_pipeline] prints before it saves the results, when no
    entry is skipped. *)
Definition progress_lines : list string :=
  [ "Loading time series data...";
    "Calculating vegetation indices...";
    "Estimating above-ground nitrogen content..." ].

(** The three keys the estimator has a regression for. *)
Definition method_keys : list string := ["NDRE"; "CIred-edge"; "MCARI"].

(** What the pipeline gets for every row: all three methods apply. *)
Definition full_result (res : EstimationResult) : Prop :=
  sample_size (uncertainty res) = 3%nat /\
  map fst (method_weights res) = method_keys /\
  get_estimation_quality (uncertainty res) = "High Confidence".

(** The tiers of [get_estimation_quality] in order; any other string
    ranks with the lowest. *)
Definition quality_rank (quality : string) : nat :=
  if decide (quality = "High Confidence") then 2
  else if decide (quality = "Moderate Confidence") then 1
  else 0.

(** The six keys [calculate_vegetation_indices] computes. *)
Definition index_keys : list string :=
  ["NDVI"; "NDRE"; "SAVI"; "GNDVI"; "MCARI"; "CIred-edge"].

(** Band means of a wheat canopy, the centres of the generator's draws. *)
Definition typical_row : BandMeans string :=
  {| row_date := "2024-02-01"; blue := 0.1; green := 0.2; red := 0.15;
     nir := 0.45; red_edge := 0.3 |}.

(** An image of one pixel with these values. *)
Definition typical_image : Image string :=
  {| image_date := "2024-02-01"; band1 := [0.1]; band2 := [0.2];
     band3 := [0.15]; band4 := [0.45]; band5 := [0.3] |}.

(** An image whose red band is zero. *)
Definition dark_image : Image string :=
  {| image_date := "2024-02-11"; band1 := [0.1]; band2 := [0.2];
     band3 := [0]; band4 := [0.45]; band5 := [0.3] |}.

(** How many of the three method keys the mapping holds. *)
Definition method_key_count (indices : gmap string R) : nat :=
  ((if contains "NDRE" indices then 1 else 0)
   + (if contains "CIred-edge" indices then 1 else 0)
   + (if contains "MCARI" indices then 1 else 0))%nat.

(** ** The estimator on binary64 numbers

    [NitrogenEstimator.estimate_n_content_from_indices] once more, with
    the floats of the program as primitive binary64 numbers: the same
    statements in the same order, each operation rounded, with overflow to
    an infinity and with NaN. *)

Module Binary64.

Import PrimFloat.
#[local] Open Scope float_scope.
#[local] Set Warnings "-inexact-float".

(** [d[key]] and [key in d] on the input dictionary. *)
Definition getitem (d : gmap string float) (key : string) : exn + float :=
  match d !! key with
  | Some v => ret v
  | None => raise (KeyError key)
  end.

Definition contains (key : string) (d : gmap string float) : bool :=
  bool_decide (is_Some (d !! key)).

(** [sum(xs)]: starts from 0 and adds from the left.  (CPython from 3.12
    on carries a compensation term for the rounding errors as well; it
    does not change a sum that is infinite or NaN.) *)
Definition sum (xs : list float) : float := fold_left add xs 0.

(** [float(n)] for the length of a list. *)
Fixpoint float_of_nat (n : nat) : float :=
  match n with
  | O => 0
  | S n' => float_of_nat n' + 1
  end.

(** [np.mean(xs)]. *)
Definition mean (xs : list float) : float := sum xs / float_of_nat (length xs).

(** [np.clip(x, lo, hi)]: the maximum and the minimum of numpy return a
    NaN first operand unchanged, so a NaN is not clipped. *)
Definition clip (x lo hi : float) : float :=
  let raised := if is_nan x then x else if lo <? x then x else lo in
  if is_nan raised then raised else if raised <? hi then raised else hi.

Record ConfidenceInterval : Type := {
  ci_estimate : float;
  ci_rmse : float;
  ci_r2 : float
}.

Record Uncertainty : Type := {
  rmse : float;
  r2_mean : float;
  sample_size : nat
}.

Record EstimationResult : Type := {
  n_content : float;
  confidence_intervals : list (string * ConfidenceInterval);
  uncertainty : Uncertainty;
  method_weights : list (string * float)
}.

Definition locals : Type :=
  (list (string * float * float) * list (string * ConfidenceInterval))%type.

Definition ndre_block (indices : gmap string float) (l : locals) : exn + locals :=
  let '(n_estimates, confidence_intervals) := l in
  if contains "NDRE" indices then
    do ndre <- getitem indices "NDRE";
    let ndre_n := 4.14 * ndre + 0.42 in
    ret (n_estimates ++ [("NDRE", ndre_n, 0.89)],
         setitem confidence_intervals "NDRE"
           {| ci_estimate := ndre_n; ci_rmse := 0.31; ci_r2 := 0.89 |})
  else ret l.

Definition ci_block (indices : gmap string float) (l : locals) : exn + locals :=
  let '(n_estimates, confidence_intervals) := l in
  if contains "CIred-edge" indices then
    do ci <- getitem indices "CIred-edge";
    let ci_n := 2.88 * ci + 0.97 in
    ret (n_estimates ++ [("CIred-edge", ci_n, 0.87)],
         setitem confidence_intervals "CIred-edge"
           {| ci_estimate := ci_n; ci_rmse := 0.34; ci_r2 := 0.87 |})
  else ret l.

Definition mcari_block (indices : gmap string float) (l : locals) : exn + locals :=
  let '(n_estimates, confidence_intervals) := l in
  if contains "MCARI" indices then
    do mcari <- getitem indices "MCARI";
    let mcari_n := 3.52 * mcari + 1.12 in
    ret (n_estimates ++ [("MCARI", mcari_n, 0.83)],
         setitem confidence_intervals "MCARI"
           {| ci_estimate := mcari_n; ci_rmse := 0.39; ci_r2 := 0.83 |})
  else ret l.

Definition savi_block (indices : gmap string float) : exn + float :=
  if contains "SAVI" indices then
    do savi <- getitem indices "SAVI";
    if savi <? 0.2 then ret 0.85
    else if 0.7 <? savi then ret 1.12
    else ret 1.0
  else ret 1.0.

(** [ci['rmse']**2] is taken as the rounded product. *)
Definition combine (l : locals) (savi_correction : float)
  : exn + EstimationResult :=
  let '(n_estimates, confidence_intervals) := l in
  match n_estimates with
  | _ :: _ =>
      let total_weight := sum (map (fun '(_, _, weight) => weight) n_estimates) in
      let weighted_n :=
        sum (map (fun '(_, est, weight) => est * weight) n_estimates)
        / total_weight in
      let n_content := weighted_n * savi_correction in
      let n_content := clip n_content 1.5 6.0 in
      let rmse_weighted :=
        sqrt (mean (map (fun ci => ci_rmse ci * ci_rmse ci)
                        (values confidence_intervals))) in
      let r2_mean := mean (map ci_r2 (values confidence_intervals)) in
      ret {| n_content := n_content;
             confidence_intervals := confidence_intervals;
             uncertainty := {| rmse := rmse_weighted;
                               r2_mean := r2_mean;
                               sample_size := length n_estimates |};
             method_weights :=
               map (fun '(name, _, weight) => (name, weight / total_weight))
                   n_estimates |}
  | [] => raise (ValueError "No valid indices available for N content estimation")
  end.

Definition estimate_n_content_from_indices (indices : gmap string float)
  : exn + EstimationResult :=
  do l1 <- ndre_block indices ([], []);
  do l2 <- ci_block indices l1;
  do l3 <- mcari_block indices l2;
  do savi_correction <- savi_block indices;
  combine l3 savi_correction.

(** [1.5 <= x <= 6.0], the range the tests of the repository assert. *)
Definition in_range (x : float) : bool := (1.5 <=? x) && (x <=? 6.0).

(** Two finite index values of large magnitude. *)
Definition overflow_indices : gmap string float :=
  {[ "NDRE" := 1e308; "CIred-edge" := -1e308 ]}.

(** The example input of the specification, and the float the program
    returns for it. *)
Definition golden : gmap string float :=
  {[ "NDRE" := 0.5; "CIred-edge" := 2.0; "MCARI" := 0.3; "SAVI" := 0.6 ]}.

Definition golden_value : float := 3.813621621621621.

End Binary64.

(** ** Tactics for concrete inputs *)

(** Lookups in a map written out with its keys. *)
Ltac eval_lookups :=
  unfold Spec.applicable, Spec.savi_factor, Spec.table, has_method_key;
  cbn [omap list_omap Spec.name fmap option_fmap option_map];
  simplify_map_eq.

(** Sums over a list written out with its elements. *)
Ltac eval_sums :=
  unfold Spec.fused, Spec.clamp, Spec.method_estimate, Spec.weight, Spec.Rmean;
  unfold Spec.Rsum;
  cbn [map fold_right fst snd length
       Spec.slope Spec.intercept Spec.r2 Spec.ref_rmse].

(** A bound on an absolute value, by cases on the sign. *)
Ltac Rabs_lra := unfold Rabs; destruct (Rcase_abs _); lra.

(** * Properties *)

(** ** The three blocks and the SAVI adjustment *)

Lemma contains_lookup (key : string) (d : gmap string R) :
  contains key d = match d !! key with Some _ => true | None => false end.
Proof.
  unfold contains. destruct (d !! key) as [v|] eqn:E.
  - apply bool_decide_eq_true. eauto.
  - apply bool_decide_eq_false. intros [v Hv]. discriminate.
Qed.

Lemma ndre_block_eq (indices : gmap string R) n c :
  ndre_block indices (n, c) =
  inr (match indices !! "NDRE" with
       | Some x => (n ++ [("NDRE", 4.14 * x + 0.42, 0.89)],
                    setitem c "NDRE" {| ci_estimate := 4.14 * x + 0.42;
                                        ci_rmse := 0.31; ci_r2 := 0.89 |})
       | None => (n, c)
       end).
Proof.
  unfold ndre_block, getitem. rewrite contains_lookup.
  destruct (indices !! "NDRE"); reflexivity.
Qed.

Lemma ci_block_eq (indices : gmap string R) n c :
  ci_block indices (n, c) =
  inr (match indices !! "CIred-edge" with
       | Some x => (n ++ [("CIred-edge", 2.88 * x + 0.97, 0.87)],
                    setitem c "CIred-edge" {| ci_estimate := 2.88 * x + 0.97;
                                              ci_rmse := 0.34; ci_r2 := 0.87 |})
       | None => (n, c)
       end).
Proof.
  unfold ci_block, getitem. rewrite contains_lookup.
  destruct (indices !! "CIred-edge"); reflexivity.
Qed.

Lemma mcari_block_eq (indices : gmap string R) n c :
  mcari_block indices (n, c) =
  inr (match indices !! "MCARI" with
       | Some x => (n ++ [("MCARI", 3.52 * x + 1.12, 0.83)],
                    setitem c "MCARI" {| ci_estimate := 3.52 * x + 1.12;
                                         ci_rmse := 0.39; ci_r2 := 0.83 |})
       | None => (n, c)
       end).
Proof.
  unfold mcari_block, getitem. rewrite contains_lookup.
  destruct (indices !! "MCARI"); reflexivity.
Qed.

Lemma savi_block_eq (indices : gmap string R) :
  savi_block indices = inr (Spec.savi_factor indices).
Proof.
  unfold savi_block, Spec.savi_factor, getitem. rewrite contains_lookup.
  destruct (indices !! "SAVI") as [savi|]; [|reflexivity].
  cbn [bind ret]. repeat case_decide; reflexivity.
Qed.

Lemma clip_clamp (x : R) : clip x 1.5 6.0 = Spec.clamp x.
Proof.
  unfold clip, Spec.clamp, Rmin, Rmax.
  repeat case_decide; repeat destruct (Rle_dec _ _); lra.
Qed.

(** ** The program against the regression table *)

(** The if-cascade of the program is the table-driven selection: after the
    blocks, the locals hold one entry per applicable method, in table
    order. *)
Lemma estimate_eq (indices : gmap string R) :
  estimate_n_content_from_indices indices =
  combine (map estimate_entry (Spec.applicable indices),
           map interval_entry (Spec.applicable indices))
          (Spec.savi_factor indices).
Proof.
  unfold estimate_n_content_from_indices.
  rewrite ndre_block_eq. cbn [bind].
  unfold Spec.applicable, Spec.table.
  cbn [omap list_omap Spec.name fmap option_fmap option_map].
  destruct (indices !! "NDRE") as [x1|];
    rewrite ci_block_eq; cbn [bind];
    destruct (indices !! "CIred-edge") as [x2|];
    rewrite mcari_block_eq; cbn [bind];
    destruct (indices !! "MCARI") as [x3|];
    rewrite savi_block_eq; reflexivity.
Qed.

Lemma has_method_key_applicable (indices : gmap string R) :
  has_method_key indices <-> Spec.applicable indices <> [].
Proof.
  unfold has_method_key, Spec.applicable, Spec.table.
  cbn [omap list_omap Spec.name fmap option_fmap option_map].
  destruct (indices !! "NDRE"), (indices !! "CIred-edge"), (indices !! "MCARI");
    cbn; split; try discriminate; eauto.
  - intros [[? ?]|[[? ?]|[? ?]]]; discriminate.
  - congruence.
Qed.

Lemma has_method_key_fmap (f : R -> R) (indices : gmap string R) :
  has_method_key (f <$> indices) <-> has_method_key indices.
Proof.
  unfold has_method_key. rewrite !lookup_fmap, !fmap_is_Some. reflexivity.
Qed.

Lemma applicable_in_table (indices : gmap string R) (a : Spec.Method * R) :
  In a (Spec.applicable indices) -> In (fst a) Spec.table.
Proof.
  unfold Spec.applicable. intros Ha.
  apply list_elem_of_In, list_elem_of_omap in Ha as (m & Hm & Hx).
  destruct (indices !! Spec.name m); [|discriminate].
  injection Hx as <-. now apply list_elem_of_In.
Qed.

Lemma table_weight_pos (m : Spec.Method) : In m Spec.table -> 0 < Spec.r2 m.
Proof.
  intros [<-|[<-|[<-|[]]]]; cbn; lra.
Qed.

Lemma applicable_weight_pos (indices : gmap string R) :
  Forall (fun w => 0 < w) (map Spec.weight (Spec.applicable indices)).
Proof.
  apply Forall_forall. intros w Hw.
  apply list_elem_of_In, in_map_iff in Hw as (a & <- & Ha).
  apply table_weight_pos, (applicable_in_table indices), Ha.
Qed.

Lemma applicable_names_NoDup (indices : gmap string R) :
  NoDup (map (fun a => Spec.name (fst a)) (Spec.applicable indices)).
Proof.
  unfold Spec.applicable, Spec.table.
  cbn [omap list_omap Spec.name fmap option_fmap option_map].
  destruct (indices !! "NDRE"), (indices !! "CIred-edge"), (indices !! "MCARI");
    cbn [map fst Spec.name];
    apply (bool_decide_unpack _); vm_compute; exact I.
Qed.

(** ** Sums *)

Lemma Rsum_nil : Spec.Rsum [] = 0.
Proof. reflexivity. Qed.

Lemma Rsum_cons (x : R) (xs : list R) : Spec.Rsum (x :: xs) = x + Spec.Rsum xs.
Proof. reflexivity. Qed.

Lemma fold_left_Rplus (xs : list R) (a : R) :
  fold_left Rplus xs a = a + Spec.Rsum xs.
Proof.
  revert a. induction xs as [|x xs IH]; intros a; cbn [fold_left].
  - rewrite Rsum_nil. lra.
  - rewrite IH, Rsum_cons. lra.
Qed.

Lemma sum_Rsum (xs : list R) : sum xs = Spec.Rsum xs.
Proof. unfold sum. rewrite fold_left_Rplus. lra. Qed.

Lemma mean_Rmean (xs : list R) : mean xs = Spec.Rmean xs.
Proof. unfold mean, Spec.Rmean. now rewrite sum_Rsum. Qed.

Lemma Rsum_nonneg (xs : list R) :
  Forall (fun w => 0 < w) xs -> 0 <= Spec.Rsum xs.
Proof.
  induction 1 as [|x xs Hx _ IH]; rewrite ?Rsum_nil, ?Rsum_cons; lra.
Qed.

Lemma Rsum_pos (xs : list R) :
  xs <> [] -> Forall (fun w => 0 < w) xs -> 0 < Spec.Rsum xs.
Proof.
  intros Hne Hpos. destruct Hpos as [|x xs Hx Hxs]; [congruence|].
  rewrite Rsum_cons. pose proof (Rsum_nonneg xs Hxs). lra.
Qed.

Lemma Rsum_scale (xs : list R) (c : R) :
  Spec.Rsum (map (fun x => x / c) xs) = Spec.Rsum xs / c.
Proof.
  induction xs as [|x xs IH]; cbn [map]; rewrite ?Rsum_nil, ?Rsum_cons.
  - lra.
  - rewrite IH. lra.
Qed.

Lemma total_weight_pos (indices : gmap string R) :
  has_method_key indices ->
  0 < Spec.Rsum (map Spec.weight (Spec.applicable indices)).
Proof.
  intros H. apply Rsum_pos.
  - apply has_method_key_applicable in H.
    destruct (Spec.applicable indices); [congruence|discriminate].
  - apply applicable_weight_pos.
Qed.

Lemma normalized_weights_sum (indices : gmap string R) :
  has_method_key indices ->
  Spec.Rsum (values (Spec.normalized_weights indices)) = 1.
Proof.
  intros H. apply total_weight_pos in H.
  unfold values, Spec.normalized_weights. rewrite map_map. cbn [snd].
  rewrite <- (map_map Spec.weight (fun w => w / _)), Rsum_scale.
  apply Rdiv_diag. lra.
Qed.

Lemma get_map_key {A V : Type} (key : A -> string) (g : A -> V)
    (l : list A) (a : A) :
  NoDup (map key l) -> In a l ->
  get (map (fun a => (key a, g a)) l) (key a) = Some (g a).
Proof.
  induction l as [|x l IH]; intros Hnd Hin; [destruct Hin|].
  cbn [map] in Hnd. apply NoDup_cons in Hnd as [Hx Hnd].
  cbn [map get]. destruct Hin as [->|Hin].
  - case_decide; [reflexivity|congruence].
  - case_decide as Hk; [|auto].
    exfalso. apply Hx. rewrite Hk.
    apply list_elem_of_In, in_map, Hin.
Qed.

(** ** The outcome of an estimation *)

(** With a method key present the estimator returns, and every field of
    the result is the one the specification describes. *)
Lemma estimate_returns (indices : gmap string R) :
  has_method_key indices ->
  estimate_n_content_from_indices indices =
  inr {| n_content := Spec.clamp (Spec.fused indices * Spec.savi_factor indices);
         confidence_intervals := map interval_entry (Spec.applicable indices);
         uncertainty := {| rmse := Spec.aggregate_rmse indices;
                           r2_mean := Spec.aggregate_r2 indices;
                           sample_size := length (Spec.applicable indices) |};
         method_weights := Spec.normalized_weights indices |}.
Proof.
  intros H. apply has_method_key_applicable in H.
  rewrite estimate_eq.
  unfold Spec.fused, Spec.aggregate_rmse, Spec.aggregate_r2,
    Spec.normalized_weights.
  destruct (Spec.applicable indices) as [|a app] eqn:E; [congruence|].
  rewrite <- E. unfold combine.
  assert (Hne : map estimate_entry (Spec.applicable indices)
                = estimate_entry a :: map estimate_entry app)
    by (rewrite E; reflexivity).
  rewrite Hne at 1. rewrite clip_clamp, !mean_Rmean, !sum_Rsum.
  unfold values. rewrite !map_map, length_map.
  reflexivity.
Qed.

Lemma estimate_raises (indices : gmap string R) :
  ~ has_method_key indices ->
  estimate_n_content_from_indices indices
  = raise (ValueError no_indices_message).
Proof.
  intros H. rewrite estimate_eq.
  destruct (Spec.applicable indices) eqn:E; [reflexivity|].
  exfalso. apply H, has_method_key_applicable. congruence.
Qed.

(** A returned result comes from an input with a method key. *)
Lemma estimate_inr_has_method_key (indices : gmap string R) (res : EstimationResult) :
  estimate_n_content_from_indices indices = inr res -> has_method_key indices.
Proof.
  intros H. apply has_method_key_applicable. intros E.
  rewrite estimate_eq, E in H. discriminate.
Qed.

Lemma estimate_cases (indices : gmap string R) :
  (has_method_key indices /\
   exists res, estimate_n_content_from_indices indices = inr res) \/
  (~ has_method_key indices /\
   estimate_n_content_from_indices indices
   = inl (ValueError no_indices_message)).
Proof.
  destruct (decide (has_method_key indices)) as [H|H].
  - left. split; [exact H|]. rewrite (estimate_returns _ H). eauto.
  - right. split; [exact H|]. apply estimate_raises, H.
Qed.

(** ** The prediction loop *)

Lemma predict_loop_eq {Date : Type} (str : Date -> string)
    (ts : list (Observation Date)) predictions stdout :
  predict_loop str predictions stdout ts
  = inr (predictions ++ omap dated_estimate ts,
         stdout ++ omap (skipped_warning str) ts).
Proof.
  revert predictions stdout.
  induction ts as [|ts_data rest IH]; intros predictions stdout.
  - cbn. now rewrite !app_nil_r.
  - cbn [predict_loop omap list_omap].
    unfold dated_estimate at 1, skipped_warning at 1.
    destruct (estimate_cases (indices ts_data)) as [[_ [res ->]]|[_ ->]].
    + rewrite IH, <- app_assoc. reflexivity.
    + rewrite IH, <- app_assoc. reflexivity.
Qed.

Lemma dated_estimate_dates {Date : Type} (ts : list (Observation Date)) :
  map result_date (omap dated_estimate ts) = map date (filter valid ts).
Proof.
  induction ts as [|obs ts IH]; [reflexivity|].
  cbn [omap list_omap]. rewrite filter_cons. unfold dated_estimate at 1.
  destruct (estimate_cases (indices obs)) as [[H [res ->]]|[H ->]].
  - rewrite decide_True by exact H. cbn. now rewrite <- IH.
  - rewrite decide_False by exact H. exact IH.
Qed.

(** ** Concrete inputs *)

Lemma golden_applicable :
  Spec.applicable golden =
  [ ({| Spec.name := "NDRE"; Spec.slope := 4.14; Spec.intercept := 0.42;
        Spec.r2 := 0.89; Spec.ref_rmse := 0.31 |}, 0.5);
    ({| Spec.name := "CIred-edge"; Spec.slope := 2.88; Spec.intercept := 0.97;
        Spec.r2 := 0.87; Spec.ref_rmse := 0.34 |}, 2.0);
    ({| Spec.name := "MCARI"; Spec.slope := 3.52; Spec.intercept := 1.12;
        Spec.r2 := 0.83; Spec.ref_rmse := 0.39 |}, 0.3) ].
Proof. reflexivity. Qed.

Lemma golden_has_method_key : has_method_key golden.
Proof. left. exists 0.5. reflexivity. Qed.




Lemma out_of_domain_has_method_key : has_method_key out_of_domain.
Proof. left. exists (-5.0). reflexivity. Qed.

Lemma out_of_domain_n_content :
  Spec.clamp (Spec.fused out_of_domain * Spec.savi_factor out_of_domain) = 1.5.
Proof.
  unfold Spec.fused, out_of_domain. eval_lookups. eval_sums.
  repeat case_decide; lra.
Qed.

Lemma large_ci_has_method_key : has_method_key large_ci.
Proof. right; left. exists 1000.0. reflexivity. Qed.

Lemma large_ci_n_content :
  Spec.clamp (Spec.fused large_ci * Spec.savi_factor large_ci) = 6.0.
Proof.
  unfold Spec.fused, large_ci. eval_lookups. eval_sums.
  repeat case_decide; lra.
Qed.

Lemma negative_ndre_has_method_key : has_method_key negative_ndre.
Proof. left. exists (-5.0). reflexivity. Qed.

Lemma negative_ndre_n_content :
  Spec.clamp (Spec.fused negative_ndre * Spec.savi_factor negative_ndre) = 1.5.
Proof.
  unfold Spec.fused, negative_ndre. eval_lookups. eval_sums.
  repeat case_decide; lra.
Qed.

Lemma empty_no_method_key : ~ has_method_key ∅.
Proof.
  unfold has_method_key. rewrite !lookup_empty.
  intros [H|[H|H]]; inversion H; discriminate.
Qed.

Lemma ndvi_only_no_method_key : ~ has_method_key ndvi_only.
Proof.
  unfold has_method_key, ndvi_only. simplify_map_eq.
  intros [H|[H|H]]; inversion H; discriminate.
Qed.

(** * The claims *)




(** C2, as stated, fails: a mapping with NDRE = -5 and CIred-edge = -2,
    both outside the domain of the index, is not rejected; the estimator
    returns the clamped estimate 1.5. *)
Lemma out_of_domain_is_accepted :
  (exists res,
     estimate_n_content_from_indices out_of_domain = inr res /\
     n_content res = 1.5) /\
  ~ (exists e, estimate_n_content_from_indices out_of_domain = raise e).
Proof.
  rewrite (estimate_returns _ out_of_domain_has_method_key). split.
  - eexists. split; [reflexivity|]. apply out_of_domain_n_content.
  - intros [e He]. discriminate.
Qed.

(** C2 (amended).  For every index mapping that contains at least one of
    NDRE, CIred-edge, MCARI, the estimator returns an estimate and raises
    nothing, whatever the supplied values are.  No value is skipped
    either: with every value of the mapping replaced by an arbitrary one,
    the result records for each method key present the linear estimate of
    the replaced value, not clamped, and [sample_size] counts every method
    key present. *)
Theorem estimate_accepts_any_values (indices : gmap string R) (f : R -> R) :
  has_method_key indices ->
  exists res,
    estimate_n_content_from_indices (f <$> indices) = inr res /\
    (forall e, estimate_n_content_from_indices (f <$> indices) <> raise e) /\
    get (confidence_intervals res) "NDRE"
    = (fun x => {| ci_estimate := 4.14 * f x + 0.42; ci_rmse := 0.31;
                   ci_r2 := 0.89 |}) <$> indices !! "NDRE" /\
    get (confidence_intervals res) "CIred-edge"
    = (fun x => {| ci_estimate := 2.88 * f x + 0.97; ci_rmse := 0.34;
                   ci_r2 := 0.87 |}) <$> indices !! "CIred-edge" /\
    get (confidence_intervals res) "MCARI"
    = (fun x => {| ci_estimate := 3.52 * f x + 1.12; ci_rmse := 0.39;
                   ci_r2 := 0.83 |}) <$> indices !! "MCARI" /\
    sample_size (uncertainty res) = method_key_count indices.
Proof.
  intros H. apply (has_method_key_fmap f) in H.
  rewrite (estimate_returns _ H). eexists. split; [reflexivity|].
  split; [intros e; discriminate|].
  cbn [confidence_intervals uncertainty sample_size].
  unfold method_key_count. rewrite !contains_lookup.
  unfold Spec.applicable, Spec.table. cbn [omap list_omap Spec.name].
  rewrite !lookup_fmap.
  destruct (indices !! "NDRE") as [x1|], (indices !! "CIred-edge") as [x2|],
    (indices !! "MCARI") as [x3|];
    cbn [fmap option_fmap option_map map];
    repeat split.
Qed.

Lemma estimate_accepts_any_values_witness :
  has_method_key negative_ndre /\
  exists res,
    estimate_n_content_from_indices ((fun x => 1000 * x) <$> negative_ndre)
    = inr res /\
    get (confidence_intervals res) "NDRE"
    = Some {| ci_estimate := 4.14 * (1000 * -5.0) + 0.42; ci_rmse := 0.31;
              ci_r2 := 0.89 |} /\
    sample_size (uncertainty res) = 1%nat.
Proof.
  split; [exact negative_ndre_has_method_key|].
  destruct (estimate_accepts_any_values negative_ndre (fun x => 1000 * x)
              negative_ndre_has_method_key)
    as (res & Hres & _ & Hndre & _ & _ & Hsize).
  exists res. split; [exact Hres|]. split; [exact Hndre|exact Hsize].
Defined.

(** C3.  The range fails on the program: on the finite values
    NDRE = 1e308 and CIred-edge = -1e308 the two linear estimates overflow
    to the two infinities, their weighted sum is NaN, [np.clip] returns
    the NaN unchanged, and the estimator returns it as [n_content], which
    is neither at least 1.5 nor at most 6.0.  (On the example input of the
    specification the same evaluation gives 3.813621621621621, in the
    range.) *)
Theorem binary64_n_content_nan_on_overflow :
  (exists res,
     Binary64.estimate_n_content_from_indices Binary64.overflow_indices
     = inr res /\
     PrimFloat.is_nan (Binary64.n_content res) = true /\
     Binary64.in_range (Binary64.n_content res) = false /\
     Forall (fun e =>
               PrimFloat.is_infinity (Binary64.ci_estimate (snd e)) = true)
            (Binary64.confidence_intervals res)) /\
  Forall (fun x => PrimFloat.is_finite x = true)
         (values (map_to_list Binary64.overflow_indices)) /\
  (exists res,
     Binary64.estimate_n_content_from_indices Binary64.golden = inr res /\
     Binary64.n_content res = Binary64.golden_value /\
     Binary64.in_range (Binary64.n_content res) = true).
Proof.
  split; [|split].
  - remember (Binary64.estimate_n_content_from_indices Binary64.overflow_indices)
      as outcome eqn:E.
    vm_compute in E. subst outcome. eexists. split; [reflexivity|].
    split; [vm_compute; reflexivity|]. split; [vm_compute; reflexivity|].
    repeat (apply Forall_cons; split; [vm_compute; reflexivity|]). constructor.
  - remember (values (map_to_list Binary64.overflow_indices)) as vs eqn:E.
    vm_compute in E. subst vs.
    repeat (apply Forall_cons; split; [vm_compute; reflexivity|]). constructor.
  - remember (Binary64.estimate_n_content_from_indices Binary64.golden)
      as outcome eqn:E.
    vm_compute in E. subst outcome. eexists. split; [reflexivity|].
    split; vm_compute; reflexivity.
Qed.

(** C4.  [predict] never raises and returns, in input order, exactly the
    dated estimates of the entries whose index mapping passes validation,
    printing one warning per entry left out; on the empty sequence it
    returns the empty sequence, and on one valid and one invalid entry, in
    either order, the one estimate of the valid entry. *)
Theorem predict_returns_valid_estimates {Date : Type} (str : Date -> string)
    (time_series_indices : list (Observation Date)) :
  predict str time_series_indices
  = inr (omap dated_estimate time_series_indices,
         omap (skipped_warning str) time_series_indices) /\
  map result_date (omap dated_estimate time_series_indices)
  = map date (filter valid time_series_indices) /\
  predict str [] = inr ([], []) /\
  (forall good bad : Observation Date,
     valid good -> ~ valid bad ->
     exists res,
       estimate_n_content_from_indices (indices good) = inr res /\
       predict str [good; bad]
       = inr ([{| result := res; result_date := date good |}],
              [warning str (date bad) no_indices_message]) /\
       predict str [bad; good]
       = inr ([{| result := res; result_date := date good |}],
              [warning str (date bad) no_indices_message])).
Proof.
  split; [|split; [|split]].
  - unfold predict. rewrite predict_loop_eq. reflexivity.
  - apply dated_estimate_dates.
  - reflexivity.
  - intros good bad Hgood Hbad. unfold valid in *.
    destruct (estimate_cases (indices good)) as [[_ [res Hres]]|[H _]];
      [|contradiction].
    exists res. unfold predict. rewrite !predict_loop_eq.
    cbn [omap list_omap app]. unfold dated_estimate, skipped_warning.
    rewrite (estimate_raises _ Hbad), Hres. cbn. eauto.
Qed.

Lemma predict_returns_valid_estimates_witness :
  valid good_entry /\ ~ valid bad_entry /\
  exists res,
    estimate_n_content_from_indices golden = inr res /\
    predict (fun d => d) [good_entry; bad_entry]
    = inr ([{| result := res; result_date := "2024-02-01" |}],
           [warning (fun d => d) "2024-02-11" no_indices_message]).
Proof.
  split; [exact golden_has_method_key|].
  split; [exact ndvi_only_no_method_key|].
  destruct (proj2 (proj2 (proj2
              (predict_returns_valid_estimates (fun d => d)
                 [good_entry; bad_entry])))
              good_entry bad_entry
              golden_has_method_key ndvi_only_no_method_key)
    as (res & Hres & Hpredict & _).
  exists res. split; [exact Hres|exact Hpredict].
Defined.

(** C5.  When the estimator returns, [method_weights] maps each applicable
    method to its R² over the sum of the applicable R², and the weights
    sum to 1. *)
Theorem method_weights_normalized (indices : gmap string R) (res : EstimationResult) :
  estimate_n_content_from_indices indices = inr res ->
  method_weights res = Spec.normalized_weights indices /\
  (forall a, In a (Spec.applicable indices) ->
     get (method_weights res) (Spec.name (fst a))
     = Some (Spec.r2 (fst a)
             / Spec.Rsum (map Spec.weight (Spec.applicable indices)))) /\
  sum (values (method_weights res)) = 1 /\
  Rabs (sum (values (method_weights res)) - 1) <= 1e-9.
Proof.
  intros Hres. pose proof (estimate_inr_has_method_key _ _ Hres) as H.
  rewrite (estimate_returns _ H) in Hres. injection Hres as <-.
  cbn [method_weights]. split; [reflexivity|]. split.
  - intros a Ha. unfold Spec.normalized_weights.
    apply (get_map_key (fun a => Spec.name (fst a))
             (fun a => Spec.weight a / _) _ a (applicable_names_NoDup indices) Ha).
  - rewrite sum_Rsum, (normalized_weights_sum _ H). split; [reflexivity|].
    Rabs_lra.
Qed.

Lemma method_weights_normalized_witness :
  exists res,
    estimate_n_content_from_indices golden = inr res /\
    get (method_weights res) "NDRE" = Some (0.89 / (0.89 + 0.87 + 0.83)) /\
    get (method_weights res) "CIred-edge" = Some (0.87 / (0.89 + 0.87 + 0.83)) /\
    get (method_weights res) "MCARI" = Some (0.83 / (0.89 + 0.87 + 0.83)) /\
    sum (values (method_weights res)) = 1.
Proof.
  eexists. split; [exact (estimate_returns golden golden_has_method_key)|].
  pose proof (method_weights_normalized golden _
                (estimate_returns golden golden_has_method_key))
    as (_ & Hget & Hs & _).
  rewrite golden_applicable in Hget.
  split; [|split; [|split]]; [| | |exact Hs].
  - etransitivity; [exact (Hget _ (or_introl eq_refl))|].
    eval_sums. f_equal. lra.
  - etransitivity; [exact (Hget _ (or_intror (or_introl eq_refl)))|].
    eval_sums. f_equal. lra.
  - etransitivity;
      [exact (Hget _ (or_intror (or_intror (or_introl eq_refl))))|].
    eval_sums. f_equal. lra.
Defined.

(** C6.  When the estimator returns, [rmse] is the square root of the mean
    of the applicable reference RMSE values squared, [r2_mean] is the mean
    of the applicable R², and [sample_size] is the number of applicable
    methods, at least 1. *)
Theorem uncertainty_aggregates (indices : gmap string R) (res : EstimationResult) :
  estimate_n_content_from_indices indices = inr res ->
  rmse (uncertainty res)
  = sqrt (Spec.Rmean (map (fun a => Spec.ref_rmse (fst a) ^ 2)
                          (Spec.applicable indices))) /\
  r2_mean (uncertainty res)
  = Spec.Rmean (map (fun a => Spec.r2 (fst a)) (Spec.applicable indices)) /\
  sample_size (uncertainty res) = length (Spec.applicable indices) /\
  (1 <= sample_size (uncertainty res))%nat.
Proof.
  intros Hres. pose proof (estimate_inr_has_method_key _ _ Hres) as H.
  rewrite (estimate_returns _ H) in Hres. injection Hres as <-.
  cbn [uncertainty rmse r2_mean sample_size].
  split; [reflexivity|]. split; [reflexivity|]. split; [reflexivity|].
  apply has_method_key_applicable in H.
  destruct (Spec.applicable indices); [congruence|cbn; lia].
Qed.

Lemma uncertainty_aggregates_witness :
  exists res,
    estimate_n_content_from_indices golden = inr res /\
    rmse (uncertainty res) = sqrt ((0.31 ^ 2 + 0.34 ^ 2 + 0.39 ^ 2) / 3) /\
    r2_mean (uncertainty res) = (0.89 + 0.87 + 0.83) / 3 /\
    sample_size (uncertainty res) = 3%nat.
Proof.
  eexists. split; [exact (estimate_returns golden golden_has_method_key)|].
  pose proof (uncertainty_aggregates golden _
                (estimate_returns golden golden_has_method_key))
    as (Hrmse & Hr2 & Hn & _).
  rewrite Hrmse, Hr2, Hn, golden_applicable. eval_sums.
  split; [f_equal; simpl INR; lra|]. split; [simpl INR; lra|reflexivity].
Defined.

(** C7.  The quality is "High Confidence" iff r2_mean > 0.85 and
    rmse < 0.35; otherwise "Moderate Confidence" iff r2_mean > 0.75 and
    rmse < 0.45; otherwise "Low Confidence".  A high R² with a high RMSE
    does not reach the higher tier. *)
Theorem quality_tiers (u : Uncertainty) :
  (get_estimation_quality u = "High Confidence" <-> high_tier u) /\
  (get_estimation_quality u = "Moderate Confidence"
   <-> ~ high_tier u /\ moderate_tier u) /\
  (get_estimation_quality u = "Low Confidence"
   <-> ~ high_tier u /\ ~ moderate_tier u) /\
  (forall n,
     get_estimation_quality {| rmse := 0.3; r2_mean := 0.9; sample_size := n |}
     = "High Confidence" /\
     get_estimation_quality {| rmse := 0.4; r2_mean := 0.8; sample_size := n |}
     = "Moderate Confidence" /\
     get_estimation_quality {| rmse := 0.5; r2_mean := 0.7; sample_size := n |}
     = "Low Confidence" /\
     get_estimation_quality {| rmse := 0.4; r2_mean := 0.9; sample_size := n |}
     = "Moderate Confidence" /\
     get_estimation_quality {| rmse := 0.5; r2_mean := 0.9; sample_size := n |}
     = "Low Confidence").
Proof.
  unfold get_estimation_quality, high_tier, moderate_tier.
  repeat split; try (intros n); cbn [rmse r2_mean];
    repeat case_bool_decide; cbn [andb];
    try discriminate; try reflexivity; try lra; try tauto.
Qed.

Lemma quality_tiers_witness :
  high_tier {| rmse := 0.3; r2_mean := 0.9; sample_size := 3 |} /\
  get_estimation_quality {| rmse := 0.3; r2_mean := 0.9; sample_size := 3 |}
  = "High Confidence".
Proof.
  assert (H : high_tier {| rmse := 0.3; r2_mean := 0.9; sample_size := 3 |})
    by (unfold high_tier; cbn [rmse r2_mean]; lra).
  split; [exact H|].
  exact (proj2 (proj1 (quality_tiers
                         {| rmse := 0.3; r2_mean := 0.9; sample_size := 3 |})) H).
Defined.

(** C8.  The estimator raises [ValueError] on the empty mapping and on
    every mapping with none of the keys NDRE, CIred-edge, MCARI, such as
    [{'NDVI': -1.0}]. *)
Theorem estimate_rejects_no_method (indices : gmap string R) :
  ~ has_method_key indices ->
  estimate_n_content_from_indices indices = raise (ValueError no_indices_message)
  /\ estimate_n_content_from_indices ∅ = raise (ValueError no_indices_message)
  /\ estimate_n_content_from_indices ndvi_only
     = raise (ValueError no_indices_message).
Proof.
  intros H. split; [|split].
  - apply estimate_raises, H.
  - apply estimate_raises, empty_no_method_key.
  - apply estimate_raises, ndvi_only_no_method_key.
Qed.

Lemma estimate_rejects_no_method_witness :
  ~ has_method_key ndvi_only /\
  estimate_n_content_from_indices ndvi_only
  = raise (ValueError no_indices_message).
Proof.
  split; [exact ndvi_only_no_method_key|].
  exact (proj1 (estimate_rejects_no_method ndvi_only ndvi_only_no_method_key)).
Defined.

(** C9.  The estimator raises exactly when none of NDRE, CIred-edge, MCARI
    is present; with one of them present it returns a result for all
    values: NDRE = -5.0 gives the estimate 1.5 and CIred-edge = 1000.0
    gives 6.0. *)
Theorem raises_iff_no_method_key (indices : gmap string R) :
  ((exists e, estimate_n_content_from_indices indices = raise e)
   <-> ~ has_method_key indices) /\
  ((exists res, estimate_n_content_from_indices indices = inr res)
   <-> has_method_key indices) /\
  (exists res, estimate_n_content_from_indices negative_ndre = inr res
               /\ n_content res = 1.5) /\
  (exists res, estimate_n_content_from_indices large_ci = inr res
               /\ n_content res = 6.0).
Proof.
  repeat split.
  - intros [e He] H. rewrite (estimate_returns _ H) in He. discriminate.
  - intros H. rewrite (estimate_raises _ H). eauto.
  - intros [res Hres]. apply (estimate_inr_has_method_key _ _ Hres).
  - intros H. rewrite (estimate_returns _ H). eauto.
  - rewrite (estimate_returns _ negative_ndre_has_method_key).
    eexists. split; [reflexivity|]. apply negative_ndre_n_content.
  - rewrite (estimate_returns _ large_ci_has_method_key).
    eexists. split; [reflexivity|]. apply large_ci_n_content.
Qed.

Lemma raises_iff_no_method_key_witness :
  has_method_key negative_ndre /\
  exists res, estimate_n_content_from_indices negative_ndre = inr res.
Proof.
  split; [exact negative_ndre_has_method_key|].
  exact (proj2 (proj1 (proj2 (raises_iff_no_method_key negative_ndre)))
           negative_ndre_has_method_key).
Defined.

(** C10.  Two mappings that agree on NDRE, CIred-edge, MCARI and SAVI get
    the same outcome, result or exception, whatever else they hold. *)
Theorem estimate_reads_four_keys (indices1 indices2 : gmap string R) :
  indices1 !! "NDRE" = indices2 !! "NDRE" ->
  indices1 !! "CIred-edge" = indices2 !! "CIred-edge" ->
  indices1 !! "MCARI" = indices2 !! "MCARI" ->
  indices1 !! "SAVI" = indices2 !! "SAVI" ->
  estimate_n_content_from_indices indices1
  = estimate_n_content_from_indices indices2.
Proof.
  intros H1 H2 H3 H4. rewrite !estimate_eq.
  unfold Spec.applicable, Spec.savi_factor, Spec.table.
  cbn [omap list_omap Spec.name fmap option_fmap option_map].
  rewrite H1, H2, H3, H4. reflexivity.
Qed.

Lemma estimate_reads_four_keys_witness :
  estimate_n_content_from_indices sample_indices
  = estimate_n_content_from_indices golden.
Proof.
  apply estimate_reads_four_keys; reflexivity.
Defined.

(** * Further properties of the estimator *)

(** ** Square roots and means *)

Lemma sqrt_lt_iff (x c : R) : 0 <= x -> 0 < c -> sqrt x < c <-> x < c * c.
Proof.
  intros Hx Hc. rewrite <- (sqrt_square c) at 1 by lra. split.
  - apply sqrt_lt_0_alt.
  - intros H. apply sqrt_lt_1_alt. lra.
Qed.

Lemma sqrt_between (x lo hi : R) :
  0 <= lo -> 0 <= hi -> lo * lo <= x <= hi * hi -> lo <= sqrt x <= hi.
Proof.
  intros Hlo Hhi [H1 H2].
  rewrite <- (sqrt_square lo), <- (sqrt_square hi) by lra.
  split; apply sqrt_le_1_alt; lra.
Qed.

Lemma Rdiv_between (n d lo hi : R) :
  0 < d -> lo * d <= n <= hi * d -> lo <= n / d <= hi.
Proof.
  intros Hd [H1 H2]. pose proof (Rinv_0_lt_compat d Hd) as Hi.
  unfold Rdiv. split.
  - replace lo with (lo * d * / d) by (field; lra).
    apply Rmult_le_compat_r; lra.
  - replace hi with (hi * d * / d) by (field; lra).
    apply Rmult_le_compat_r; lra.
Qed.


Lemma Rsum_between (xs : list R) (lo hi : R) :
  Forall (fun x => lo <= x <= hi) xs ->
  lo * INR (length xs) <= Spec.Rsum xs <= hi * INR (length xs).
Proof.
  induction 1 as [|x xs Hx _ IH].
  - rewrite Rsum_nil. cbn. lra.
  - rewrite Rsum_cons. cbn [length]. rewrite S_INR. lra.
Qed.

Lemma Rmean_between (xs : list R) (lo hi : R) :
  xs <> [] -> Forall (fun x => lo <= x <= hi) xs ->
  lo <= Spec.Rmean xs <= hi.
Proof.
  intros Hne H. unfold Spec.Rmean. apply Rdiv_between.
  - destruct xs; [congruence|]. cbn [length]. rewrite S_INR.
    pose proof (pos_INR (length xs)). lra.
  - apply Rsum_between, H.
Qed.

Lemma table_reference_bounds (m : Spec.Method) :
  In m Spec.table ->
  0.83 <= Spec.r2 m <= 0.89 /\
  0.31 * 0.31 <= Spec.ref_rmse m ^ 2 <= 0.39 * 0.39.
Proof.
  intros [<-|[<-|[<-|[]]]]; cbn [Spec.r2 Spec.ref_rmse]; lra.
Qed.

Lemma applicable_Forall (indices : gmap string R) (P : Spec.Method -> Prop) :
  (forall m, In m Spec.table -> P m) ->
  Forall (fun a => P (fst a)) (Spec.applicable indices).
Proof.
  intros H. apply Forall_forall. intros a Ha.
  apply H, (applicable_in_table indices), list_elem_of_In, Ha.
Qed.

Lemma applicable_length (indices : gmap string R) :
  (length (Spec.applicable indices) <= 3)%nat.
Proof.
  unfold Spec.applicable, Spec.table.
  cbn [omap list_omap Spec.name fmap option_fmap option_map].
  destruct (indices !! "NDRE"), (indices !! "CIred-edge"), (indices !! "MCARI");
    cbn; lia.
Qed.

(** X1.  The uncertainty of a returned result stays within the reference
    statistics: [rmse] in [0.31, 0.39], [r2_mean] in [0.83, 0.89], and
    [sample_size] between 1 and 3. *)
Theorem uncertainty_within_reference (indices : gmap string R)
    (res : EstimationResult) :
  estimate_n_content_from_indices indices = inr res ->
  0.31 <= rmse (uncertainty res) <= 0.39 /\
  0.83 <= r2_mean (uncertainty res) <= 0.89 /\
  (1 <= sample_size (uncertainty res) <= 3)%nat.
Proof.
  intros Hres. pose proof (estimate_inr_has_method_key _ _ Hres) as H.
  rewrite (estimate_returns _ H) in Hres. injection Hres as <-.
  cbn [uncertainty rmse r2_mean sample_size].
  apply has_method_key_applicable in H.
  assert (Hmap : forall (f : Spec.Method * R -> R),
            map f (Spec.applicable indices) <> []).
  { intros f E. apply map_eq_nil in E. contradiction. }
  split; [|split].
  - unfold Spec.aggregate_rmse. apply sqrt_between; [lra|lra|].
    apply Rmean_between; [apply Hmap|].
    apply Forall_map.
    apply (applicable_Forall indices
             (fun m => 0.31 * 0.31 <= Spec.ref_rmse m ^ 2 <= 0.39 * 0.39)).
    intros m Hm. apply (table_reference_bounds m Hm).
  - unfold Spec.aggregate_r2. apply Rmean_between; [apply Hmap|].
    apply Forall_map.
    apply (applicable_Forall indices (fun m => 0.83 <= Spec.r2 m <= 0.89)).
    intros m Hm. apply (table_reference_bounds m Hm).
  - pose proof (applicable_length indices).
    destruct (Spec.applicable indices); [congruence|cbn in *; lia].
Qed.

Lemma uncertainty_within_reference_witness :
  exists res,
    estimate_n_content_from_indices golden = inr res /\
    0.31 <= rmse (uncertainty res) <= 0.39 /\
    0.83 <= r2_mean (uncertainty res) <= 0.89.
Proof.
  eexists. split; [exact (estimate_returns golden golden_has_method_key)|].
  pose proof (uncertainty_within_reference golden _
                (estimate_returns golden golden_has_method_key))
    as (Hrmse & Hr2 & _).
  split; [exact Hrmse|exact Hr2].
Defined.

(** ** The quality of an estimate *)

Lemma Rmean_nonneg (xs : list R) :
  Forall (fun x => 0 <= x) xs -> 0 <= Spec.Rmean xs.
Proof.
  intros H. destruct xs as [|x xs].
  - unfold Spec.Rmean. rewrite Rsum_nil. unfold Rdiv. lra.
  - apply (Rmean_between (x :: xs) 0 (Spec.Rsum (x :: xs))); [discriminate|].
    assert (Hsum : forall ys, Forall (fun y => 0 <= y) ys ->
              Forall (fun y => 0 <= y <= Spec.Rsum ys) ys).
    { induction 1 as [|y ys Hy Hys IH]; constructor.
      - rewrite Rsum_cons.
        assert (0 <= Spec.Rsum ys).
        { clear IH. induction Hys; rewrite ?Rsum_nil, ?Rsum_cons; lra. }
        lra.
      - rewrite Rsum_cons. eapply Forall_impl; [exact IH|].
        cbn. intros z Hz. lra. }
    apply Hsum, H.
Qed.

(** The quality of an uncertainty whose [rmse] is a square root, by
    comparisons of the radicand. *)
Lemma quality_of_sqrt (x r : R) (n : nat) :
  0 <= x ->
  get_estimation_quality {| rmse := sqrt x; r2_mean := r; sample_size := n |}
  = if bool_decide (r > 0.85) && bool_decide (x < 0.35 * 0.35)
    then "High Confidence"
    else if bool_decide (r > 0.75) && bool_decide (x < 0.45 * 0.45)
    then "Moderate Confidence"
    else "Low Confidence".
Proof.
  intros Hx. unfold get_estimation_quality. cbn [rmse r2_mean].
  pose proof (sqrt_lt_iff x 0.35 Hx ltac:(lra)) as H1.
  pose proof (sqrt_lt_iff x 0.45 Hx ltac:(lra)) as H2.
  repeat case_bool_decide; cbn [andb]; try reflexivity; tauto.
Qed.

(** X2.  The quality of a returned result is never "Low Confidence".  It is
    "High Confidence" exactly when NDRE or CIred-edge is present and MCARI
    comes with both of them or not at all, and "Moderate Confidence"
    otherwise. *)
Theorem quality_of_estimate (indices : gmap string R) (res : EstimationResult) :
  estimate_n_content_from_indices indices = inr res ->
  get_estimation_quality (uncertainty res) <> "Low Confidence" /\
  (get_estimation_quality (uncertainty res) = "High Confidence" <->
   (is_Some (indices !! "NDRE") \/ is_Some (indices !! "CIred-edge")) /\
   (is_Some (indices !! "MCARI") ->
    is_Some (indices !! "NDRE") /\ is_Some (indices !! "CIred-edge"))) /\
  (get_estimation_quality (uncertainty res) <> "High Confidence" ->
   get_estimation_quality (uncertainty res) = "Moderate Confidence").
Proof.
  intros Hres. pose proof (estimate_inr_has_method_key _ _ Hres) as H.
  rewrite (estimate_returns _ H) in Hres. injection Hres as <-.
  cbn [uncertainty]. unfold Spec.aggregate_rmse, Spec.aggregate_r2.
  rewrite quality_of_sqrt
    by (apply Rmean_nonneg, Forall_map, Forall_forall; intros a _;
        apply pow2_ge_0).
  revert H. unfold has_method_key, Spec.applicable, Spec.table.
  cbn [omap list_omap Spec.name fmap option_fmap option_map].
  rewrite !is_Some_alt.
  destruct (indices !! "NDRE") as [x1|], (indices !! "CIred-edge") as [x2|],
    (indices !! "MCARI") as [x3|];
    cbn [fmap option_fmap option_map]; intros H; eval_sums; simpl INR;
    repeat case_bool_decide; cbn [andb]; try lra;
    intuition (try discriminate; try congruence).
Qed.

Lemma quality_of_estimate_witness :
  exists res,
    estimate_n_content_from_indices golden = inr res /\
    get_estimation_quality (uncertainty res) = "High Confidence".
Proof.
  eexists. split; [exact (estimate_returns golden golden_has_method_key)|].
  pose proof (quality_of_estimate golden _
                (estimate_returns golden golden_has_method_key))
    as (_ & Hhigh & _).
  apply Hhigh. split.
  - left. exists 0.5. reflexivity.
  - intros _. split; [exists 0.5|exists 2.0]; reflexivity.
Defined.

(** ** The estimate among the method estimates *)

Lemma weighted_sum_between (app : list (Spec.Method * R)) (lo hi : R) :
  Forall (fun a => 0 < Spec.weight a) app ->
  Forall (fun a => lo <= Spec.method_estimate a <= hi) app ->
  lo * Spec.Rsum (map Spec.weight app)
  <= Spec.Rsum (map (fun a => Spec.method_estimate a * Spec.weight a) app)
  <= hi * Spec.Rsum (map Spec.weight app).
Proof.
  intros Hw. induction Hw as [|a app Ha Hw IH]; intros He.
  - cbn [map]. rewrite !Rsum_nil. lra.
  - apply Forall_cons in He as [Hea He]. specialize (IH He).
    cbn [map]. rewrite !Rsum_cons. nra.
Qed.

Lemma interval_entry_estimates (app : list (Spec.Method * R)) (lo hi : R) :
  Forall (fun e => lo <= ci_estimate (snd e) <= hi) (map interval_entry app) ->
  Forall (fun a => lo <= Spec.method_estimate a <= hi) app.
Proof.
  intros H. apply Forall_map in H. exact H.
Qed.

Lemma applicable_weights (indices : gmap string R) :
  Forall (fun a => 0 < Spec.weight a) (Spec.applicable indices).
Proof.
  apply (applicable_Forall indices (fun m => 0 < Spec.r2 m)).
  apply table_weight_pos.
Qed.

Lemma clamp_mono (x y : R) : x <= y -> Spec.clamp x <= Spec.clamp y.
Proof. intros H. unfold Spec.clamp. repeat case_decide; lra. Qed.

Lemma savi_factor_uncorrected (indices : gmap string R) :
  match indices !! "SAVI" with
  | Some savi => 0.2 <= savi <= 0.7
  | None => True
  end ->
  Spec.savi_factor indices = 1.0.
Proof.
  unfold Spec.savi_factor. destruct (indices !! "SAVI") as [savi|]; [|reflexivity].
  intros H. repeat case_decide; lra.
Qed.

(** X3.  In exact real arithmetic: without a SAVI correction (SAVI absent
    or in [0.2, 0.7]), when every recorded method estimate lies in
    [lo, hi], the returned [n_content] lies between the clamped bounds;
    when [lo, hi] is within [1.5, 6.0] it lies in [lo, hi].  On binary64
    numbers the weighted average is rounded and can leave [lo, hi] by a
    unit in the last place. *)
Theorem n_content_between_method_estimates (indices : gmap string R)
    (res : EstimationResult) (lo hi : R) :
  estimate_n_content_from_indices indices = inr res ->
  match indices !! "SAVI" with
  | Some savi => 0.2 <= savi <= 0.7
  | None => True
  end ->
  Forall (fun e => lo <= ci_estimate (snd e) <= hi) (confidence_intervals res) ->
  clip lo 1.5 6.0 <= n_content res <= clip hi 1.5 6.0 /\
  (1.5 <= lo -> hi <= 6.0 -> lo <= n_content res <= hi).
Proof.
  intros Hres Hsavi Hest. apply savi_factor_uncorrected in Hsavi.
  pose proof (estimate_inr_has_method_key _ _ Hres) as H.
  rewrite (estimate_returns _ H) in Hres. injection Hres as <-.
  cbn [n_content confidence_intervals] in *.
  apply interval_entry_estimates in Hest.
  assert (Hf : lo <= Spec.fused indices <= hi).
  { unfold Spec.fused. apply Rdiv_between; [apply total_weight_pos, H|].
    apply weighted_sum_between; [apply applicable_weights|exact Hest]. }
  rewrite Hsavi, !clip_clamp.
  replace (Spec.fused indices * 1.0) with (Spec.fused indices) by lra.
  split.
  - split; apply clamp_mono; lra.
  - intros Hlo Hhi. unfold Spec.clamp. repeat case_decide; lra.
Qed.

Lemma n_content_between_method_estimates_witness :
  exists res,
    estimate_n_content_from_indices golden = inr res /\
    clip 2.176 1.5 6.0 <= n_content res <= clip 6.73 1.5 6.0.
Proof.
  eexists. split; [exact (estimate_returns golden golden_has_method_key)|].
  apply (n_content_between_method_estimates golden _ 2.176 6.73
           (estimate_returns golden golden_has_method_key)).
  - replace (golden !! "SAVI") with (Some 0.6) by reflexivity. lra.
  - cbn [confidence_intervals]. rewrite golden_applicable.
    unfold interval_entry, Spec.method_estimate.
    cbn [map fst snd Spec.slope Spec.intercept].
    repeat (apply Forall_cons; split; [cbn [snd ci_estimate]; lra|]).
    constructor.
Defined.

(** ** Monotonicity *)

Lemma savi_factor_bounds (indices : gmap string R) :
  0.85 <= Spec.savi_factor indices <= 1.12.
Proof.
  unfold Spec.savi_factor. destruct (indices !! "SAVI"); repeat case_decide; lra.
Qed.

Lemma insert_has_method_key (indices : gmap string R) (key : string) (x : R) :
  In key method_keys -> has_method_key (<[key := x]> indices).
Proof.
  unfold has_method_key.
  intros [<-|[<-|[<-|[]]]]; rewrite lookup_insert_eq; eauto.
Qed.

Lemma fused_insert_mono (indices : gmap string R) (key : string) (x y : R) :
  In key method_keys -> x <= y ->
  Spec.fused (<[key := x]> indices) <= Spec.fused (<[key := y]> indices).
Proof.
  intros Hkey Hxy. unfold Spec.fused, Spec.applicable, Spec.table.
  cbn [omap list_omap Spec.name].
  destruct Hkey as [<-|[<-|[<-|[]]]]; simplify_map_eq;
    destruct (indices !! "NDRE") as [x1|], (indices !! "CIred-edge") as [x2|],
      (indices !! "MCARI") as [x3|];
    cbn [fmap option_fmap option_map]; eval_sums; lra.
Qed.

(** X4.  Raising the value of NDRE, of CIred-edge or of MCARI, with the
    rest of the mapping unchanged, never lowers [n_content]. *)
Theorem n_content_monotone (indices : gmap string R) (key : string) (x y : R)
    (res_x res_y : EstimationResult) :
  In key method_keys -> x <= y ->
  estimate_n_content_from_indices (<[key := x]> indices) = inr res_x ->
  estimate_n_content_from_indices (<[key := y]> indices) = inr res_y ->
  n_content res_x <= n_content res_y.
Proof.
  intros Hkey Hxy Hx Hy.
  rewrite (estimate_returns _ (insert_has_method_key indices key x Hkey)) in Hx.
  rewrite (estimate_returns _ (insert_has_method_key indices key y Hkey)) in Hy.
  injection Hx as <-. injection Hy as <-. cbn [n_content].
  assert (HS : Spec.savi_factor (<[key := x]> indices)
               = Spec.savi_factor (<[key := y]> indices)).
  { unfold Spec.savi_factor.
    destruct Hkey as [<-|[<-|[<-|[]]]]; now rewrite !lookup_insert_ne. }
  rewrite HS. apply clamp_mono, Rmult_le_compat_r.
  - pose proof (savi_factor_bounds (<[key := y]> indices)). lra.
  - apply fused_insert_mono; assumption.
Qed.

Lemma n_content_monotone_witness :
  exists res_x res_y,
    estimate_n_content_from_indices (<["NDRE" := 0.5]> golden) = inr res_x /\
    estimate_n_content_from_indices (<["NDRE" := 0.6]> golden) = inr res_y /\
    n_content res_x <= n_content res_y.
Proof.
  assert (Hkey : In "NDRE" method_keys) by (left; reflexivity).
  eexists. eexists.
  split; [exact (estimate_returns _ (insert_has_method_key golden "NDRE" 0.5 Hkey))|].
  split; [exact (estimate_returns _ (insert_has_method_key golden "NDRE" 0.6 Hkey))|].
  apply (n_content_monotone golden "NDRE" 0.5 0.6 _ _ Hkey ltac:(lra)
           (estimate_returns _ (insert_has_method_key golden "NDRE" 0.5 Hkey))
           (estimate_returns _ (insert_has_method_key golden "NDRE" 0.6 Hkey))).
Defined.

(** ** The SAVI correction *)

Lemma applicable_insert_savi (indices : gmap string R) (savi : R) :
  Spec.applicable (<["SAVI" := savi]> indices) = Spec.applicable indices.
Proof.
  unfold Spec.applicable, Spec.table. cbn [omap list_omap Spec.name].
  now rewrite !lookup_insert_ne.
Qed.

Lemma has_method_key_insert_savi (indices : gmap string R) (savi : R) :
  has_method_key (<["SAVI" := savi]> indices) <-> has_method_key indices.
Proof.
  rewrite !has_method_key_applicable, applicable_insert_savi. reflexivity.
Qed.

Lemma fused_insert_savi (indices : gmap string R) (savi : R) :
  Spec.fused (<["SAVI" := savi]> indices) = Spec.fused indices.
Proof. unfold Spec.fused. now rewrite applicable_insert_savi. Qed.

Lemma savi_factor_insert (indices : gmap string R) (savi : R) :
  Spec.savi_factor (<["SAVI" := savi]> indices)
  = if decide (savi < 0.2) then 0.85
    else if decide (savi > 0.7) then 1.12 else 1.0.
Proof. unfold Spec.savi_factor. now rewrite lookup_insert_eq. Qed.

(** X5.  The SAVI value changes [n_content] only: with SAVI set to any
    value the estimator returns the same per-method estimates, the same
    uncertainty and the same weights; and a SAVI in [0.2, 0.7] gives the
    result of a mapping without SAVI. *)
Theorem savi_changes_only_n_content (indices : gmap string R) (savi : R)
    (res : EstimationResult) :
  estimate_n_content_from_indices indices = inr res ->
  exists res',
    estimate_n_content_from_indices (<["SAVI" := savi]> indices) = inr res' /\
    confidence_intervals res' = confidence_intervals res /\
    uncertainty res' = uncertainty res /\
    method_weights res' = method_weights res /\
    (indices !! "SAVI" = None -> 0.2 <= savi <= 0.7 -> res' = res).
Proof.
  intros Hres. pose proof (estimate_inr_has_method_key _ _ Hres) as H.
  rewrite (estimate_returns _ H) in Hres. injection Hres as <-.
  rewrite (estimate_returns _ (proj2 (has_method_key_insert_savi indices savi) H)).
  eexists. split; [reflexivity|].
  cbn [confidence_intervals uncertainty method_weights].
  unfold Spec.aggregate_rmse, Spec.aggregate_r2, Spec.normalized_weights.
  rewrite fused_insert_savi, !applicable_insert_savi.
  repeat (split; [reflexivity|]).
  intros Hnone Hsavi. rewrite savi_factor_insert.
  unfold Spec.savi_factor. rewrite Hnone.
  repeat case_decide; try lra. reflexivity.
Qed.

Lemma savi_changes_only_n_content_witness :
  exists res res',
    estimate_n_content_from_indices negative_ndre = inr res /\
    estimate_n_content_from_indices (<["SAVI" := 0.9]> negative_ndre) = inr res' /\
    uncertainty res' = uncertainty res /\
    method_weights res' = method_weights res.
Proof.
  destruct (savi_changes_only_n_content negative_ndre 0.9 _
              (estimate_returns _ negative_ndre_has_method_key))
    as (res' & Hres' & _ & Hu & Hw & _).
  eexists. exists res'.
  split; [exact (estimate_returns _ negative_ndre_has_method_key)|].
  split; [exact Hres'|]. split; [exact Hu|exact Hw].
Defined.

(** X6.  [n_content] never decreases when SAVI increases: the factor goes
    from 0.85 to 1.0 to 1.12, and a negative fused value is clamped to 1.5
    under every factor. *)
Theorem n_content_monotone_in_savi (indices : gmap string R) (savi savi' : R)
    (res res' : EstimationResult) :
  savi <= savi' ->
  estimate_n_content_from_indices (<["SAVI" := savi]> indices) = inr res ->
  estimate_n_content_from_indices (<["SAVI" := savi']> indices) = inr res' ->
  n_content res <= n_content res'.
Proof.
  intros Hle Hres Hres'.
  pose proof (estimate_inr_has_method_key _ _ Hres) as H.
  pose proof (estimate_inr_has_method_key _ _ Hres') as H'.
  rewrite (estimate_returns _ H) in Hres. injection Hres as <-.
  rewrite (estimate_returns _ H') in Hres'. injection Hres' as <-.
  cbn [n_content]. rewrite !fused_insert_savi, !savi_factor_insert.
  generalize (Spec.fused indices). intros F.
  unfold Spec.clamp. repeat case_decide; lra.
Qed.

Lemma n_content_monotone_in_savi_witness :
  exists res res',
    estimate_n_content_from_indices (<["SAVI" := 0.1]> golden) = inr res /\
    estimate_n_content_from_indices (<["SAVI" := 0.9]> golden) = inr res' /\
    n_content res <= n_content res'.
Proof.
  assert (H : forall s, has_method_key (<["SAVI" := s]> golden))
    by (intros s; apply has_method_key_insert_savi, golden_has_method_key).
  eexists. eexists.
  split; [exact (estimate_returns _ (H 0.1))|].
  split; [exact (estimate_returns _ (H 0.9))|].
  apply (n_content_monotone_in_savi golden 0.1 0.9 _ _ ltac:(lra)
           (estimate_returns _ (H 0.1)) (estimate_returns _ (H 0.9))).
Defined.

(** ** The recorded method estimates *)

(** X7.  A returned result records, for each method key present, the
    linear estimate of its value, not clamped, with the reference RMSE and
    R²; it records nothing under any other key; [confidence_intervals] and
    [method_weights] have the same keys in the same order, as many as
    [sample_size]. *)
Theorem confidence_intervals_entries (indices : gmap string R)
    (res : EstimationResult) :
  estimate_n_content_from_indices indices = inr res ->
  get (confidence_intervals res) "NDRE"
  = (fun x => {| ci_estimate := 4.14 * x + 0.42; ci_rmse := 0.31;
                 ci_r2 := 0.89 |}) <$> indices !! "NDRE" /\
  get (confidence_intervals res) "CIred-edge"
  = (fun x => {| ci_estimate := 2.88 * x + 0.97; ci_rmse := 0.34;
                 ci_r2 := 0.87 |}) <$> indices !! "CIred-edge" /\
  get (confidence_intervals res) "MCARI"
  = (fun x => {| ci_estimate := 3.52 * x + 1.12; ci_rmse := 0.39;
                 ci_r2 := 0.83 |}) <$> indices !! "MCARI" /\
  (forall key, ~ In key method_keys ->
     get (confidence_intervals res) key = None
     /\ get (method_weights res) key = None) /\
  map fst (confidence_intervals res) = map fst (method_weights res) /\
  length (confidence_intervals res) = sample_size (uncertainty res).
Proof.
  intros Hres. pose proof (estimate_inr_has_method_key _ _ Hres) as H.
  rewrite (estimate_returns _ H) in Hres. injection Hres as <-.
  cbn [confidence_intervals method_weights uncertainty sample_size].
  unfold Spec.normalized_weights, Spec.applicable, Spec.table, method_keys.
  cbn [omap list_omap Spec.name].
  destruct (indices !! "NDRE") as [x1|], (indices !! "CIred-edge") as [x2|],
    (indices !! "MCARI") as [x3|];
    cbn [fmap option_fmap option_map map];
    (split; [reflexivity|]); (split; [reflexivity|]); (split; [reflexivity|]);
    (split; [|split; reflexivity]);
    intros key Hkey; unfold interval_entry; cbn [get fst Spec.name];
    repeat case_decide; subst; try (split; reflexivity);
    exfalso; apply Hkey; cbn; tauto.
Qed.

Lemma confidence_intervals_entries_witness :
  exists res,
    estimate_n_content_from_indices golden = inr res /\
    get (confidence_intervals res) "CIred-edge"
    = Some {| ci_estimate := 2.88 * 2.0 + 0.97; ci_rmse := 0.34; ci_r2 := 0.87 |}.
Proof.
  eexists. split; [exact (estimate_returns golden golden_has_method_key)|].
  exact (proj1 (proj2 (confidence_intervals_entries golden _
                         (estimate_returns golden golden_has_method_key)))).
Defined.

(** * Further properties of the prediction loop *)

Lemma predict_eq {Date : Type} (str : Date -> string)
    (ts : list (Observation Date)) :
  predict str ts = inr (omap dated_estimate ts, omap (skipped_warning str) ts).
Proof. unfold predict. now rewrite predict_loop_eq. Qed.

(** X8.  Predicting over a concatenation is predicting over each part and
    concatenating the results and the warnings: no entry influences the
    estimate of another. *)
Theorem predict_app {Date : Type} (str : Date -> string)
    (xs ys : list (Observation Date)) :
  predict str (xs ++ ys)
  = do a <- predict str xs;
    do b <- predict str ys;
    ret (fst a ++ fst b, snd a ++ snd b).
Proof.
  rewrite !predict_eq, !omap_app. reflexivity.
Qed.

Lemma omap_estimate_lengths {Date : Type} (str : Date -> string)
    (ts : list (Observation Date)) :
  (length (omap dated_estimate ts) + length (omap (skipped_warning str) ts)
   = length ts)%nat.
Proof.
  induction ts as [|obs ts IH]; [reflexivity|].
  cbn [omap list_omap].
  destruct (estimate_cases (indices obs)) as [[H [res Hres]]|[H Hres]].
  - assert (Hd : dated_estimate obs
                 = Some {| result := res; result_date := date obs |})
      by (unfold dated_estimate; now rewrite Hres).
    assert (Hs : skipped_warning str obs = None)
      by (unfold skipped_warning; now rewrite Hres).
    rewrite Hd, Hs. cbn [length]. lia.
  - assert (Hd : dated_estimate obs = None)
      by (unfold dated_estimate; now rewrite Hres).
    assert (Hs : skipped_warning str obs
                 = Some (warning str (date obs) no_indices_message))
      by (unfold skipped_warning; now rewrite Hres).
    rewrite Hd, Hs. cbn [length]. lia.
Qed.

(** X9.  Every entry is accounted for: the results and the warnings of
    [predict] together are as many as the entries, the results are as
    many as the entries with a method key and carry their dates in order,
    and the warnings are as many as the entries without one. *)
Theorem predict_accounts_for_every_entry {Date : Type} (str : Date -> string)
    (ts : list (Observation Date))
    (results : list (DatedEstimationResult Date)) (stdout : list string) :
  predict str ts = inr (results, stdout) ->
  (length results + length stdout = length ts)%nat /\
  map result_date results = map date (filter valid ts) /\
  length results = length (filter valid ts) /\
  (length stdout + length (filter valid ts) = length ts)%nat.
Proof.
  rewrite predict_eq. intros E. injection E as <- <-.
  pose proof (omap_estimate_lengths str ts) as Hlen.
  assert (Hres : length (omap dated_estimate ts) = length (filter valid ts)).
  { rewrite <- (length_map result_date), dated_estimate_dates, length_map.
    reflexivity. }
  split; [exact Hlen|]. split; [apply dated_estimate_dates|].
  split; [exact Hres|]. lia.
Qed.

Lemma predict_accounts_for_every_entry_witness :
  exists results stdout,
    predict (fun d => d) [good_entry; bad_entry] = inr (results, stdout) /\
    (length results + length stdout = 2)%nat.
Proof.
  eexists. eexists. split; [apply predict_eq|].
  exact (proj1 (predict_accounts_for_every_entry (fun d => d)
                  [good_entry; bad_entry] _ _ (predict_eq _ _))).
Defined.

(** * The data loader and the pipeline *)

Lemma truediv_nonzero (x y : R) : y <> 0 -> truediv x y = inr (x / y).
Proof. intros H. unfold truediv. now rewrite decide_False. Qed.

Lemma row_indices_returns {Date : Type} (row : BandMeans Date) :
  nonzero_denominators row -> row_indices row = inr (row_formulas row).
Proof.
  intros (H1 & H2 & H3 & H4 & H5 & H6). unfold row_indices.
  rewrite !truediv_nonzero by assumption. reflexivity.
Qed.

Lemma row_indices_raises {Date : Type} (row : BandMeans Date) :
  ~ nonzero_denominators row -> row_indices row = raise ZeroDivisionError.
Proof.
  intros H. unfold row_indices, truediv.
  repeat (case_decide; cbn [bind raise ret]; [reflexivity|]).
  exfalso. apply H. unfold nonzero_denominators. tauto.
Qed.

Lemma positive_means_nonzero {Date : Type} (row : BandMeans Date) :
  positive_means row -> nonzero_denominators row.
Proof.
  intros (Hg & Hr & Hn & He). unfold nonzero_denominators.
  repeat split; lra.
Qed.

Lemma load_loop_eq {Date : Type} (image_files : list (Image Date))
    (time_series : list (BandMeans Date)) :
  load_loop time_series image_files = time_series ++ map band_means image_files.
Proof.
  revert time_series. induction image_files as [|src rest IH]; intros acc.
  - cbn. now rewrite app_nil_r.
  - cbn [load_loop map]. rewrite IH, <- app_assoc. reflexivity.
Qed.

Lemma indices_loop_returns {Date : Type} (df : list (BandMeans Date))
    (time_series_indices : list (Observation Date)) :
  Forall nonzero_denominators df ->
  indices_loop time_series_indices df
  = inr (time_series_indices ++ map row_observation df).
Proof.
  intros H. revert time_series_indices.
  induction H as [|row rest Hrow _ IH]; intros acc.
  - cbn. now rewrite app_nil_r.
  - cbn [indices_loop map]. rewrite (row_indices_returns row Hrow).
    cbn [bind]. rewrite IH, <- app_assoc. reflexivity.
Qed.

Lemma indices_loop_raises {Date : Type} (df : list (BandMeans Date))
    (time_series_indices : list (Observation Date)) :
  ~ Forall nonzero_denominators df ->
  indices_loop time_series_indices df = raise ZeroDivisionError.
Proof.
  revert time_series_indices.
  induction df as [|row rest IH]; intros acc H.
  - exfalso. apply H. constructor.
  - cbn [indices_loop]. destruct (decide (nonzero_denominators row)) as [Hrow|Hrow].
    + rewrite (row_indices_returns row Hrow). cbn [bind]. apply IH.
      intros Hrest. apply H. apply Forall_cons. split; assumption.
    + rewrite (row_indices_raises row Hrow). reflexivity.
Qed.

Lemma calculate_vegetation_indices_eq {Date : Type} (data_dir : string)
    (src : Image Date) (rest : list (Image Date)) :
  calculate_vegetation_indices data_dir (src :: rest)
  = indices_loop [] (map band_means (src :: rest)).
Proof.
  unfold calculate_vegetation_indices, load_time_series. cbn [bind ret].
  now rewrite load_loop_eq.
Qed.

Lemma row_formulas_keys {Date : Type} (row : BandMeans Date) (key : string) :
  In key index_keys <-> is_Some (row_formulas row !! key).
Proof.
  unfold row_formulas, index_keys. rewrite !lookup_insert, lookup_singleton.
  cbn [In]. repeat case_decide; subst.
  all: split; intros Hk; eauto 10.
  all: try (destruct Hk as [? ?]; discriminate).
  all: repeat (destruct Hk as [Hk|Hk]; [congruence|]); destruct Hk.
Qed.

Lemma row_formulas_has_method_key {Date : Type} (row : BandMeans Date) :
  has_method_key (row_formulas row).
Proof.
  left. apply row_formulas_keys. cbn. tauto.
Qed.

Lemma typical_image_nonzero :
  Forall nonzero_denominators (map band_means [typical_image]).
Proof.
  apply Forall_cons. split; [|constructor].
  apply positive_means_nonzero. unfold positive_means, band_means, mean, sum.
  cbn [green red nir red_edge typical_image band2 band3 band4 band5
       fold_left length]. simpl INR. lra.
Qed.

Lemma typical_image_has_pixels : Forall has_pixels [typical_image].
Proof.
  apply Forall_cons. split; [|constructor].
  unfold has_pixels. repeat split; discriminate.
Qed.

(** X10.  With no image [calculate_vegetation_indices] raises the
    [ValueError] of [load_time_series].  With images whose band means make
    no denominator zero it returns one entry per image, in file order and
    with the image's date, each holding exactly the six indices NDVI,
    NDRE, SAVI, GNDVI, MCARI and CIred-edge.  When some image makes a
    denominator zero it raises [ZeroDivisionError] and returns no
    entry. *)
Theorem calculate_vegetation_indices_entries {Date : Type} (data_dir : string)
    (image_files : list (Image Date)) :
  Forall has_pixels image_files ->
  (image_files = [] ->
   calculate_vegetation_indices data_dir image_files
   = raise (ValueError ("No .tif files found in " ++ data_dir)%string)) /\
  (image_files <> [] ->
   Forall nonzero_denominators (map band_means image_files) ->
   exists entries,
     calculate_vegetation_indices data_dir image_files = inr entries /\
     map date entries = map image_date image_files /\
     Forall (fun entry => forall key,
               In key index_keys <-> is_Some (indices entry !! key))
            entries) /\
  (~ Forall nonzero_denominators (map band_means image_files) ->
   calculate_vegetation_indices data_dir image_files = raise ZeroDivisionError).
Proof.
  intros _. split; [|split].
  - intros ->. reflexivity.
  - intros Hne Hnz. destruct image_files as [|src rest]; [congruence|].
    rewrite calculate_vegetation_indices_eq, (indices_loop_returns _ _ Hnz).
    eexists. split; [reflexivity|]. split.
    + cbn [app]. rewrite !map_map. reflexivity.
    + cbn [app]. rewrite map_map. apply Forall_map, Forall_forall.
      intros img _ key. apply row_formulas_keys.
  - intros Hz. destruct image_files as [|src rest].
    + exfalso. apply Hz. constructor.
    + rewrite calculate_vegetation_indices_eq. apply indices_loop_raises, Hz.
Qed.

Lemma calculate_vegetation_indices_entries_witness :
  (exists entries,
     calculate_vegetation_indices "drone_images" [typical_image] = inr entries /\
     map date entries = ["2024-02-01"]) /\
  calculate_vegetation_indices "drone_images" [typical_image; dark_image]
  = raise ZeroDivisionError.
Proof.
  split.
  - destruct (proj1 (proj2 (calculate_vegetation_indices_entries
                              "drone_images" [typical_image]
                              typical_image_has_pixels))
                ltac:(discriminate) typical_image_nonzero)
      as (entries & E & Hd & _).
    exists entries. split; [exact E|exact Hd].
  - apply (calculate_vegetation_indices_entries
             "drone_images" [typical_image; dark_image]).
    + repeat (apply Forall_cons; split;
              [unfold has_pixels; repeat split; discriminate|]).
      constructor.
    + intros H. apply Forall_cons in H as [_ H].
      apply Forall_cons in H as [(_ & _ & _ & _ & Hred & _) _].
      apply Hred. unfold band_means, mean, sum.
      cbn [red dark_image band3 fold_left length]. simpl INR. lra.
Defined.

Lemma row_applicable {Date : Type} (row : BandMeans Date) :
  exists ndre ci mcari,
    Spec.applicable (row_formulas row) =
    [ ({| Spec.name := "NDRE"; Spec.slope := 4.14; Spec.intercept := 0.42;
          Spec.r2 := 0.89; Spec.ref_rmse := 0.31 |}, ndre);
      ({| Spec.name := "CIred-edge"; Spec.slope := 2.88; Spec.intercept := 0.97;
          Spec.r2 := 0.87; Spec.ref_rmse := 0.34 |}, ci);
      ({| Spec.name := "MCARI"; Spec.slope := 3.52; Spec.intercept := 1.12;
          Spec.r2 := 0.83; Spec.ref_rmse := 0.39 |}, mcari) ].
Proof.
  do 3 eexists. unfold row_formulas. eval_lookups. reflexivity.
Qed.

Lemma row_estimate {Date : Type} (row : BandMeans Date) :
  exists res,
    estimate_n_content_from_indices (row_formulas row) = inr res /\
    full_result res.
Proof.
  rewrite (estimate_returns _ (row_formulas_has_method_key row)).
  eexists. split; [reflexivity|].
  unfold full_result. cbn [uncertainty sample_size method_weights].
  unfold Spec.aggregate_rmse, Spec.aggregate_r2, Spec.normalized_weights.
  destruct (row_applicable row) as (ndre & ci & mcari & ->).
  split; [reflexivity|]. split; [reflexivity|].
  rewrite quality_of_sqrt.
  - eval_sums. simpl INR. repeat case_bool_decide; cbn [andb]; try reflexivity; lra.
  - eval_sums. simpl INR. lra.
Qed.

Lemma rows_predicted {Date : Type} (str : Date -> string)
    (rows : list (BandMeans Date)) :
  exists results,
    predict str (map row_observation rows) = inr (results, []) /\
    map result_date results = map row_date rows /\
    Forall (fun r => full_result (result r)) results.
Proof.
  rewrite predict_eq. induction rows as [|row rows (results & E & Hd & Hall)].
  - exists []. repeat split. constructor.
  - injection E as E1 E2. destruct (row_estimate row) as (res & Hres & Hfull).
    exists ({| result := res; result_date := row_date row |} :: results).
    cbn [map omap list_omap].
    assert (Hde : dated_estimate (row_observation row)
                  = Some {| result := res; result_date := row_date row |})
      by (unfold dated_estimate; cbn [indices row_observation]; now rewrite Hres).
    assert (Hsw : skipped_warning str (row_observation row) = None)
      by (unfold skipped_warning; cbn [indices row_observation]; now rewrite Hres).
    rewrite Hde, Hsw, E1, E2. split; [reflexivity|].
    split; [cbn [result_date]; now rewrite Hd|].
    apply Forall_cons. split; [exact Hfull|exact Hall].
Qed.

(** X11.  Steps 1 to 3 of [run_pipeline].  With no image they raise the
    [ValueError] of [load_time_series]; when some image makes a
    denominator of an index zero they raise [ZeroDivisionError]; otherwise
    they give one result per image, in file order and with the image's
    date, and skip none.  All three methods apply to every image, so every
    result has [sample_size] 3, weights for NDRE, CIred-edge and MCARI,
    and the quality "High Confidence". *)
Theorem analysis_results_one_per_image {Date : Type} (str : Date -> string)
    (data_dir : string) (image_files : list (Image Date)) :
  Forall has_pixels image_files ->
  (image_files = [] ->
   analysis_results str data_dir image_files
   = raise (ValueError ("No .tif files found in " ++ data_dir)%string)) /\
  (image_files <> [] ->
   Forall nonzero_denominators (map band_means image_files) ->
   exists results,
     analysis_results str data_dir image_files
     = inr (results, progress_lines) /\
     map result_date results = map image_date image_files /\
     results <> [] /\
     Forall (fun r => full_result (result r)) results) /\
  (~ Forall nonzero_denominators (map band_means image_files) ->
   analysis_results str data_dir image_files = raise ZeroDivisionError).
Proof.
  intros _. split; [|split].
  - intros ->. reflexivity.
  - intros Hne Hnz. destruct image_files as [|src rest]; [congruence|].
    unfold analysis_results.
    rewrite calculate_vegetation_indices_eq, (indices_loop_returns _ _ Hnz).
    destruct (rows_predicted str (map band_means (src :: rest)))
      as (results & E & Hd & Hall).
    unfold load_time_series. cbn [bind ret app]. rewrite E. cbn [bind ret fst snd].
    exists results. split; [reflexivity|].
    assert (Hdates : map result_date results = map image_date (src :: rest))
      by (rewrite Hd, map_map; reflexivity).
    split; [exact Hdates|]. split; [|exact Hall].
    intros ->. discriminate.
  - intros Hz. destruct image_files as [|src rest].
    + exfalso. apply Hz. constructor.
    + unfold analysis_results.
      rewrite calculate_vegetation_indices_eq, (indices_loop_raises _ _ Hz).
      reflexivity.
Qed.

Lemma analysis_results_one_per_image_witness :
  exists results,
    analysis_results (fun d => d) "drone_images" [typical_image]
    = inr (results, progress_lines) /\
    map result_date results = ["2024-02-01"].
Proof.
  destruct (proj1 (proj2 (analysis_results_one_per_image
                            (fun d => d) "drone_images" [typical_image]
                            typical_image_has_pixels))
              ltac:(discriminate) typical_image_nonzero)
    as (results & E & Hd & _).
  exists results. split; [exact E|exact Hd].
Defined.

(** ** The indices of a row *)

Lemma row_formulas_lookups {Date : Type} (row : BandMeans Date) :
  row_formulas row !! "NDVI"
  = Some ((nir row - red row) / (nir row + red row)) /\
  row_formulas row !! "NDRE"
  = Some ((nir row - red_edge row) / (nir row + red_edge row)) /\
  row_formulas row !! "SAVI"
  = Some (1.5 * (nir row - red row) / (nir row + red row + 0.5)) /\
  row_formulas row !! "GNDVI"
  = Some ((nir row - green row) / (nir row + green row)) /\
  row_formulas row !! "MCARI"
  = Some (((red_edge row - red row) - 0.2 * (red_edge row - green row))
          * (red_edge row / red row)) /\
  row_formulas row !! "CIred-edge" = Some (nir row / red_edge row - 1).
Proof. repeat split. Qed.

Lemma typical_row_positive : positive_means typical_row.
Proof. unfold positive_means. cbn. lra. Qed.

Lemma typical_row_reflectance : reflectance_means typical_row.
Proof. unfold reflectance_means. cbn. lra. Qed.

Lemma reflectance_means_positive {Date : Type} (row : BandMeans Date) :
  reflectance_means row -> positive_means row.
Proof. unfold reflectance_means, positive_means. tauto. Qed.

(** X12.  In exact real arithmetic: for a row of band means that are
    reflectances (positive and at most 1) no division fails and the
    indices are in the ranges the tests of the repository assert: NDVI,
    NDRE and GNDVI in [-1, 1], SAVI in [-1.5, 1.5], CIred-edge at least
    -1; MCARI, which the tests expect non-negative, is non-negative
    exactly when red is at most 0.8 red edge + 0.2 green. *)
Theorem row_indices_ranges {Date : Type} (row : BandMeans Date) :
  reflectance_means row ->
  exists indices ndvi ndre savi gndvi mcari ci,
    row_indices row = inr indices /\
    indices !! "NDVI" = Some ndvi /\ -1 <= ndvi <= 1 /\
    indices !! "NDRE" = Some ndre /\ -1 <= ndre <= 1 /\
    indices !! "SAVI" = Some savi /\ -1.5 <= savi <= 1.5 /\
    indices !! "GNDVI" = Some gndvi /\ -1 <= gndvi <= 1 /\
    indices !! "MCARI" = Some mcari /\
    (0 <= mcari <-> red row <= 0.8 * red_edge row + 0.2 * green row) /\
    indices !! "CIred-edge" = Some ci /\ -1 <= ci.
Proof.
  intros Hpos. apply reflectance_means_positive in Hpos.
  pose proof (positive_means_nonzero row Hpos) as Hnz.
  destruct Hpos as (Hg & Hr & Hn & He).
  destruct (row_formulas_lookups row) as (E1 & E2 & E3 & E4 & E5 & E6).
  do 7 eexists. split; [exact (row_indices_returns row Hnz)|].
  split; [exact E1|]. split; [apply Rdiv_between; lra|].
  split; [exact E2|]. split; [apply Rdiv_between; lra|].
  split; [exact E3|]. split; [apply Rdiv_between; lra|].
  split; [exact E4|]. split; [apply Rdiv_between; lra|].
  split; [exact E5|]. split.
  - assert (Hq : 0 < red_edge row / red row) by (apply Rdiv_lt_0_compat; lra).
    split; intros H; nra.
  - split; [exact E6|].
    assert (Hq : 0 < nir row / red_edge row) by (apply Rdiv_lt_0_compat; lra).
    lra.
Qed.

Lemma row_indices_ranges_witness :
  exists indices ndvi mcari,
    row_indices typical_row = inr indices /\
    indices !! "NDVI" = Some ndvi /\ -1 <= ndvi <= 1 /\
    indices !! "MCARI" = Some mcari /\ 0 <= mcari.
Proof.
  destruct (row_indices_ranges typical_row typical_row_reflectance)
    as (indices & ndvi & ndre & savi & gndvi & mcari & ci & E & E1 & H1
        & _ & _ & _ & _ & _ & _ & E5 & H5 & _).
  exists indices, ndvi, mcari. split; [exact E|]. split; [exact E1|].
  split; [exact H1|]. split; [exact E5|]. apply H5. cbn. lra.
Defined.

(** X13.  In exact real arithmetic: for a row of positive band means the
    NDRE the loader computes is a function of its CIred-edge,
    NDRE = CI / (CI + 2).  On binary64 numbers the two sides agree up to
    rounding only. *)
Theorem ndre_from_ci {Date : Type} (row : BandMeans Date) :
  positive_means row ->
  exists indices ndre ci,
    row_indices row = inr indices /\
    indices !! "NDRE" = Some ndre /\
    indices !! "CIred-edge" = Some ci /\
    ndre = ci / (ci + 2).
Proof.
  intros Hpos. pose proof (positive_means_nonzero row Hpos) as Hnz.
  destruct Hpos as (Hg & Hr & Hn & He).
  destruct (row_formulas_lookups row) as (_ & E2 & _ & _ & _ & E6).
  do 3 eexists. split; [exact (row_indices_returns row Hnz)|].
  split; [exact E2|]. split; [exact E6|].
  field. split; lra.
Qed.

Lemma ndre_from_ci_witness :
  exists indices ndre ci,
    row_indices typical_row = inr indices /\
    indices !! "NDRE" = Some ndre /\
    indices !! "CIred-edge" = Some ci /\
    ndre = ci / (ci + 2).
Proof.
  exact (ndre_from_ci typical_row typical_row_positive).
Defined.

(** * The synthetic data generator *)









Lemma Rsum_map_scale (xs : list R) (a b : R) :
  Spec.Rsum (map (fun r => r * a / b) xs) = Spec.Rsum xs * a / b.
Proof.
  induction xs as [|x xs IH]; cbn [map]; rewrite ?Rsum_nil, ?Rsum_cons.
  - unfold Rdiv. lra.
  - rewrite IH. unfold Rdiv. lra.
Qed.

Lemma mean_map_scale (xs : list R) (a b : R) :
  mean (map (fun r => r * a / b) xs) = mean xs * a / b.
Proof.
  unfold mean. rewrite !sum_Rsum, Rsum_map_scale, length_map.
  unfold Rdiv. lra.
Qed.

Lemma mean_nonempty (xs : list R) : mean xs <> 0 -> xs <> [].
Proof.
  intros H ->. apply H. unfold mean, sum. cbn. unfold Rdiv. lra.
Qed.

(** X15.  In exact real arithmetic (the storage of the bands as float32
    is outside the model): the NDVI target of a synthetic image comes back
    through the loader.  For a target strictly between -1 and 1 and drawn
    green, red and red edge bands of positive mean, the loader raises
    nothing on the image the generator writes, and the entry it computes
    has the date of the image and NDVI equal to the target. *)
Theorem synthetic_image_ndvi_round_trip {Date : Type} (d : Date)
    (data_dir : string) (targets : gmap string R)
    (blue_px green_px red_px red_edge_px : list R) (ndvi_target : R) :
  targets !! "NDVI" = Some ndvi_target ->
  -1 < ndvi_target < 1 ->
  blue_px <> [] ->
  0 < mean green_px -> 0 < mean red_px -> 0 < mean red_edge_px ->
  exists img entry,
    create_synthetic_image d targets blue_px green_px red_px red_edge_px
    = inr img /\
    has_pixels img /\
    calculate_vegetation_indices data_dir [img] = inr [entry] /\
    date entry = d /\
    indices entry !! "NDVI" = Some ndvi_target.
Proof.
  intros Htarget Ht Hblue Hgreen Hred Hre.
  unfold create_synthetic_image, getitem. rewrite Htarget. cbn [bind ret].
  eexists. eexists. split; [reflexivity|].
  assert (Hnir : 0 < mean red_px * (1 + ndvi_target) / (1 - ndvi_target)).
  { apply Rdiv_lt_0_compat; [|lra]. apply Rmult_lt_0_compat; lra. }
  split.
  { unfold has_pixels. cbn [band1 band2 band3 band4 band5].
    assert (Hr : red_px <> []) by (apply mean_nonempty; lra).
    repeat split; try assumption; try (apply mean_nonempty; lra).
    intros E. apply map_eq_nil in E. contradiction. }
  rewrite calculate_vegetation_indices_eq.
  rewrite indices_loop_returns.
  - cbn [map app]. split; [reflexivity|]. split; [reflexivity|].
    cbn [indices row_observation].
    rewrite (proj1 (row_formulas_lookups _)). f_equal.
    cbn [nir red band_means band3 band4]. rewrite mean_map_scale.
    field. split; [lra|]. intros E. nra.
  - cbn [map]. apply Forall_cons. split; [|constructor].
    apply positive_means_nonzero. unfold positive_means.
    cbn [green red nir red_edge band_means band2 band3 band4 band5].
    rewrite mean_map_scale. repeat split; assumption.
Qed.

Lemma synthetic_image_ndvi_round_trip_witness :
  exists img entry,
    create_synthetic_image "2024-02-01" sample_indices
      [0.1] [0.2] [0.15; 0.17] [0.3]
    = inr img /\
    calculate_vegetation_indices "drone_images" [img] = inr [entry] /\
    date entry = "2024-02-01" /\
    indices entry !! "NDVI" = Some 0.7.
Proof.
  assert (Hgreen : 0 < mean [0.2])
    by (unfold mean, sum; cbn [fold_left length]; simpl INR; lra).
  assert (Hred : 0 < mean [0.15; 0.17])
    by (unfold mean, sum; cbn [fold_left length]; simpl INR; lra).
  assert (Hre : 0 < mean [0.3])
    by (unfold mean, sum; cbn [fold_left length]; simpl INR; lra).
  destruct (synthetic_image_ndvi_round_trip "2024-02-01" "drone_images"
              sample_indices [0.1] [0.2] [0.15; 0.17] [0.3] 0.7
              eq_refl ltac:(lra) ltac:(discriminate) Hgreen Hred Hre)
    as (img & entry & Himg & _ & Hcalc & Hdate & Hndvi).
  exists img, entry. repeat split; assumption.
Defined.

(** * The quality tiers in order *)

(** X16.  The quality label is one of the three tiers, and a record with
    an R² at least as high and an RMSE at most as high never gets a lower
    tier. *)
Theorem quality_monotone (u u' : Uncertainty) :
  r2_mean u <= r2_mean u' -> rmse u' <= rmse u ->
  In (get_estimation_quality u')
     ["High Confidence"; "Moderate Confidence"; "Low Confidence"] /\
  (quality_rank (get_estimation_quality u)
   <= quality_rank (get_estimation_quality u'))%nat.
Proof.
  intros Hr2 Hrmse. unfold get_estimation_quality.
  repeat case_bool_decide; cbn [andb]; try lra;
    (split; [cbn; tauto|]); unfold quality_rank;
    repeat case_decide; try discriminate; try congruence; lia.
Qed.

Lemma quality_monotone_witness :
  (quality_rank
     (get_estimation_quality {| rmse := 0.4; r2_mean := 0.8; sample_size := 1 |})
   <= quality_rank
        (get_estimation_quality {| rmse := 0.3; r2_mean := 0.9; sample_size := 1 |}))%nat.
Proof.
  apply (quality_monotone
           {| rmse := 0.4; r2_mean := 0.8; sample_size := 1 |}
           {| rmse := 0.3; r2_mean := 0.9; sample_size := 1 |});
    cbn [rmse r2_mean]; lra.
Defined.
